(** * pv-safe: the deletion risk engine and its admission adapter

    A shallow embedding of package [webhook]: the [SnapshotChecker]
    (internal/webhook/snapshot.go), the [RiskCalculator] and the admission
    [Handler], followed by the properties of the specification that
    concern them.

    Conventions.
    - A Go [(T, error)] pair is a [result T]; an [error] is the text its
      [Error()] method prints, so [fmt.Errorf("...: %w", err)] is string
      concatenation.
    - The Kubernetes typed client and the dynamic client are records of
      read functions: what a call returns is the cluster state.
    - [map[string]interface{}] (the content of an [unstructured.Unstructured])
      is a [gmap string value]; the accessors [NestedString], [NestedBool]
      and [NestedStringMap] follow k8s.io/apimachinery.
    - [encoding/json] is not part of the repository: the decoder of the
      prior object is a section variable.
    - The [CreationTime] of a [SnapshotInfo] is not modelled, and the
      [log.Logger] output is modelled apart from the verdicts, as the list
      of logged messages; no verdict depends on them. Nor is the five-second
      [context] of [assessAndDecide]: a read that exceeds it is a read that
      returns an error. *)

From stdpp Require Import base option list gmap strings.
From Stdlib.Strings Require Import Ascii Byte.
From Stdlib Require Import DecimalString.

Open Scope string_scope.
Open Scope list_scope.

(* ------------------------------------------------------------------ *)
(** ** Go values shared by the three files *)

Definition error := string.

Inductive result (A : Type) : Type :=
| Ok (a : A)
| Err (e : error).
Arguments Ok {A} a.
Arguments Err {A} e.

(** The line feed written ["\n"] in the Go sources. *)
Definition LF : string := String "010"%char "".
(** The double quote character, escaped in the Go string literals. *)
Definition DQ : string := String "034"%char "".

(** [strings.Contains], used to state what a message contains. *)
Fixpoint strings_Contains (s substr : string) : bool :=
  String.prefix substr s ||
  match s with
  | EmptyString => false
  | String _ rest => strings_Contains rest substr
  end.

(* ------------------------------------------------------------------ *)
(** ** k8s.io/apimachinery: unstructured content *)

Module unstructured.

(** A decoded JSON value: [interface{}] as [encoding/json] produces it. *)
#[warnings="-register-all"]
Inductive value : Type :=
| VNil
| VBool (b : bool)
| VNumber (n : Z)
| VString (s : string)
| VList (l : list value)
| VMap (m : gmap string value).

(** [map[string]interface{}], the [Object] of an [Unstructured]. *)
Abbreviation object := (gmap string value).

(** [NestedFieldNoCopy]: walk [fields] from [val]; the triple is
    (value, found, error). *)
Fixpoint nestedField (val : value) (fields : list string)
  : value * bool * option error :=
  match fields with
  | [] => (val, true, None)
  | field :: rest =>
      match val with
      | VNil => (VNil, false, None)
      | VMap m =>
          match m !! field with
          | Some v => nestedField v rest
          | None => (VNil, false, None)
          end
      | _ => (VNil, false, Some (field +:+ " accessor error"))
      end
  end.

Definition NestedFieldNoCopy (obj : object) (fields : list string)
  : value * bool * option error :=
  nestedField (VMap obj) fields.

Definition NestedString (obj : object) (fields : list string)
  : string * bool * option error :=
  let '(val, found, err) := NestedFieldNoCopy obj fields in
  if negb found || bool_decide (err ≠ None) then ("", found, err)
  else match val with
       | VString s => (s, true, None)
       | _ => ("", false, Some "accessor error: expected string")
       end.

Definition NestedBool (obj : object) (fields : list string)
  : bool * bool * option error :=
  let '(val, found, err) := NestedFieldNoCopy obj fields in
  if negb found || bool_decide (err ≠ None) then (false, found, err)
  else match val with
       | VBool b => (b, true, None)
       | _ => (false, false, Some "accessor error: expected bool")
       end.

Definition asString (v : value) : option string :=
  match v with VString s => Some s | _ => None end.

(** [NestedStringMap]: the map at [fields] when every value in it is a
    string; Go's nil map is [None]. *)
Definition NestedStringMap (obj : object) (fields : list string)
  : option (gmap string string) * bool * option error :=
  let '(val, found, err) := NestedFieldNoCopy obj fields in
  if negb found || bool_decide (err ≠ None) then (None, found, err)
  else match val with
       | VMap m =>
           if bool_decide (map_Forall (λ _ v, is_Some (asString v)) m)
           then (Some (omap asString m), true, None)
           else (None, false, Some "accessor error: expected string")
       | _ => (None, false, Some "accessor error: expected map")
       end.

(** The [Unstructured] getters [GetName], [GetNamespace], [GetLabels].
    [GetLabels] reads the labels with [NestedStringMap], as apimachinery
    does before v0.33; later versions read a null label value as the empty
    string. The two agree on labels whose values are all strings. *)
Definition GetName (obj : object) : string :=
  (NestedString obj ["metadata"; "name"]).1.1.
Definition GetNamespace (obj : object) : string :=
  (NestedString obj ["metadata"; "namespace"]).1.1.
Definition GetLabels (obj : object) : option (gmap string string) :=
  (NestedStringMap obj ["metadata"; "labels"]).1.1.

End unstructured.

(* ------------------------------------------------------------------ *)
(** ** The snapshot checker *)

Import unstructured.

(** [UnknownDeletionPolicy] represents an unknown or unset deletion policy. *)
Definition UnknownDeletionPolicy : string := "Unknown".

(** [dynamic.Interface], restricted to the two reads the checker issues:
    [Resource(volumeSnapshotGVR).Namespace(ns).List] and
    [Resource(snapshotClassGVR).Get(className)]. *)
Record DynamicClient := {
  ListVolumeSnapshots : string → result (list object);
  GetVolumeSnapshotClass : string → result object
}.

Record SnapshotChecker := {
  dynamicClient : DynamicClient
}.

Record SnapshotInfo := {
  SnapshotInfo_Name : string;
  SnapshotInfo_Namespace : string;
  SnapshotInfo_SourcePVC : string;
  SnapshotInfo_IsReady : bool;
  SnapshotInfo_DeletionPolicy : string;
  SnapshotInfo_RestoreSize : string
}.

(** [getSnapshotClassDeletionPolicy] gets the deletion policy from a
    VolumeSnapshotClass. *)
Definition getSnapshotClassDeletionPolicy (sc : SnapshotChecker)
    (className : string) : result string :=
  match GetVolumeSnapshotClass (dynamicClient sc) className with
  | Err err => Err err
  | Ok class =>
      let '(policy, found, err) := NestedString class ["deletionPolicy"] in
      if bool_decide (err ≠ None) || negb found
      then Ok UnknownDeletionPolicy
      else Ok policy
  end.

(** The deletion policy the loop body of [HasReadySnapshot] computes for
    one snapshot (its lines "Get deletion policy from VolumeSnapshotClass
    if possible"). *)
Definition snapshotDeletionPolicy (sc : SnapshotChecker) (snapshot : object)
    : string :=
  let deletionPolicy := UnknownDeletionPolicy in
  let '(snapshotClassName, found, _) :=
    NestedString snapshot ["spec"; "volumeSnapshotClassName"] in
  if found && negb (String.eqb snapshotClassName "")
  then match getSnapshotClassDeletionPolicy sc snapshotClassName with
       | Ok policy => policy
       | Err _ => deletionPolicy
       end
  else deletionPolicy.

(** The [SnapshotInfo] the loop body builds for a ready snapshot. *)
Definition snapshotInfoOf (item : object) (sourcePVC deletionPolicy : string)
    : SnapshotInfo :=
  let '(restoreSize, found, _) :=
    NestedString item ["status"; "restoreSize"] in
  {| SnapshotInfo_Name := GetName item;
     SnapshotInfo_Namespace := GetNamespace item;
     SnapshotInfo_SourcePVC := sourcePVC;
     SnapshotInfo_IsReady := true;
     SnapshotInfo_DeletionPolicy := deletionPolicy;
     SnapshotInfo_RestoreSize := if found then restoreSize else "" |}.

(** The [for _, item := range snapshots.Items] loop of [HasReadySnapshot];
    each [continue] is the recursive call on the remaining items. *)
Fixpoint hasReadySnapshotLoop (sc : SnapshotChecker) (pvcName : string)
    (items : list object) : bool * option SnapshotInfo * option error :=
  match items with
  | [] => (false, None, None)
  | item :: rest =>
      let snapshot := item in
      let '(sourcePVC, found, err) :=
        NestedString snapshot ["spec"; "source"; "persistentVolumeClaimName"] in
      if bool_decide (err ≠ None) || negb found
         || negb (String.eqb sourcePVC pvcName)
      then hasReadySnapshotLoop sc pvcName rest
      else
        let '(ready, _, _) := NestedBool snapshot ["status"; "readyToUse"] in
        if negb ready then hasReadySnapshotLoop sc pvcName rest
        else
          let deletionPolicy := snapshotDeletionPolicy sc snapshot in
          let info := snapshotInfoOf item sourcePVC deletionPolicy in
          if String.eqb deletionPolicy "Retain"
          then (true, Some info, None)
          else hasReadySnapshotLoop sc pvcName rest
  end.

(** [HasReadySnapshot] checks if a PVC has a Ready VolumeSnapshot with
    Retain policy. *)
Definition HasReadySnapshot (sc : SnapshotChecker) (namespace pvcName : string)
    : bool * option SnapshotInfo * option error :=
  match ListVolumeSnapshots (dynamicClient sc) namespace with
  | Err err =>
      (false, None,
       Some ("failed to list volumesnapshots (CSI snapshots may not be available): "
             +:+ err))
  | Ok snapshots => hasReadySnapshotLoop sc pvcName snapshots
  end.

(* ------------------------------------------------------------------ *)
(** ** k8s.io/api/core/v1: the objects the calculator reads *)

Record ObjectReference := {
  ObjectReference_Namespace : string;
  ObjectReference_Name : string
}.

(** [pv.Name], [pv.Spec.PersistentVolumeReclaimPolicy], [pv.Spec.ClaimRef]. *)
Record PersistentVolume := {
  PV_Name : string;
  PV_ReclaimPolicy : string;
  PV_ClaimRef : option ObjectReference
}.

(** [pvc.Name], [pvc.Namespace], [pvc.Status.Phase], [pvc.Spec.VolumeName]. *)
Record PersistentVolumeClaim := {
  PVC_Name : string;
  PVC_Namespace : string;
  PVC_Phase : string;
  PVC_VolumeName : string
}.

Definition ClaimBound : string := "Bound".
Definition PersistentVolumeReclaimRetain : string := "Retain".
Definition PersistentVolumeReclaimDelete : string := "Delete".

(** [kubernetes.Interface], restricted to the three reads of the calculator:
    [PersistentVolumeClaims(ns).Get], [PersistentVolumeClaims(ns).List] and
    [PersistentVolumes().Get]. *)
Record KubeClient := {
  GetPVC : string → string → result PersistentVolumeClaim;
  ListPVCs : string → result (list PersistentVolumeClaim);
  GetPV : string → result PersistentVolume
}.

(* ------------------------------------------------------------------ *)
(** ** The risk calculator *)

(** [RiskyPVC] represents a PVC that would lose data if deleted. *)
Record RiskyPVC := {
  RiskyPVC_Name : string;
  RiskyPVC_Namespace : string;
  RiskyPVC_PVName : string;
  RiskyPVC_Reason : string;
  RiskyPVC_HasSnapshot : bool;
  RiskyPVC_SnapshotInfo : string
}.

(** [RiskAssessment] contains the result of analyzing deletion risk. *)
Record RiskAssessment := {
  IsRisky : bool;
  RiskyPVCs : list RiskyPVC;
  Message : string;
  Suggestion : string
}.

(** [snapshotChecker] is a pointer: main passes nil when the checker could
    not be created. *)
Record RiskCalculator := {
  client : KubeClient;
  snapshotChecker : option SnapshotChecker
}.

(** The verb [%d] applied to [len(riskyPVCs)]. *)
Definition fmt_d (n : nat) : string :=
  DecimalString.NilZero.string_of_uint (Nat.to_uint n).

(** [isPVRisky] determines if a PV deletion would cause data loss. *)
Definition isPVRisky (pv : PersistentVolume) : bool :=
  if String.eqb (PV_ReclaimPolicy pv) PersistentVolumeReclaimRetain then false
  else if String.eqb (PV_ReclaimPolicy pv) PersistentVolumeReclaimDelete then true
  else true.

(** [isPVCRisky] determines if a PVC deletion would cause data loss,
    considering snapshots. *)
Definition isPVCRisky (rc : RiskCalculator) (namespace pvcName : string)
    (pv : PersistentVolume) : bool * string * option SnapshotInfo :=
  let risky :=
    (true,
     "PV has " +:+ PV_ReclaimPolicy pv +:+ " reclaim policy, no snapshot found",
     None) in
  if String.eqb (PV_ReclaimPolicy pv) PersistentVolumeReclaimRetain
  then (false, "PV has Retain reclaim policy", None)
  else
    match snapshotChecker rc with
    | Some sc =>
        match HasReadySnapshot sc namespace pvcName with
        | (true, Some snapshotInfo, None) =>
            (false,
             "Ready VolumeSnapshot '" +:+ SnapshotInfo_Name snapshotInfo
               +:+ "' exists with Retain policy",
             Some snapshotInfo)
        | _ => risky
        end
    | None => risky
    end.

(** [buildNamespaceBlockMessage] creates the error message for namespace
    deletion. *)
Definition buildNamespaceBlockMessage (namespace : string)
    (riskyPVCs : list RiskyPVC) : string :=
  "DELETION BLOCKED: Namespace '" +:+ namespace +:+ "' contains "
    +:+ fmt_d (length riskyPVCs)
    +:+ " PVC(s) that would lose data permanently" +:+ LF +:+ LF
  +:+ "Risky PVCs:" +:+ LF
  +:+ String.concat ""
        (map (λ risky, "  - " +:+ RiskyPVC_Name risky +:+ ": "
                       +:+ RiskyPVC_Reason risky +:+ LF) riskyPVCs).

(** [buildPVCBlockMessage] creates the error message for PVC deletion. *)
Definition buildPVCBlockMessage (risky : RiskyPVC) : string :=
  "DELETION BLOCKED: PVC '" +:+ RiskyPVC_Namespace risky +:+ "/"
    +:+ RiskyPVC_Name risky +:+ "' would lose data permanently" +:+ LF +:+ LF
    +:+ "Reason: " +:+ RiskyPVC_Reason risky +:+ LF.

(** [buildPVBlockMessage] creates the error message for PV deletion. *)
Definition buildPVBlockMessage (pv : PersistentVolume) (risky : RiskyPVC)
    : string :=
  let msg :=
    "DELETION BLOCKED: PV '" +:+ PV_Name pv
      +:+ "' would lose data permanently" +:+ LF +:+ LF
      +:+ "Reason: " +:+ RiskyPVC_Reason risky +:+ LF in
  if negb (String.eqb (RiskyPVC_Namespace risky) "")
     && negb (String.eqb (RiskyPVC_Name risky) "")
  then msg +:+ "Bound to: " +:+ RiskyPVC_Namespace risky +:+ "/"
           +:+ RiskyPVC_Name risky +:+ LF
  else msg.

(** The [kubectl patch pv] line shared by the three suggestion builders. *)
Definition patchLine (pvName : string) : string :=
  "     kubectl patch pv " +:+ pvName +:+ " -p '{" +:+ DQ +:+ "spec" +:+ DQ
    +:+ ":{" +:+ DQ +:+ "persistentVolumeReclaimPolicy" +:+ DQ +:+ ":"
    +:+ DQ +:+ "Retain" +:+ DQ +:+ "}}'" +:+ LF.

(** [buildPVCSuggestions] creates actionable suggestions for PVC deletion. *)
Definition buildPVCSuggestions (namespace pvcName pvName : string) : string :=
  LF +:+ "To safely delete this PVC:" +:+ LF
  +:+ "  1. Create a VolumeSnapshot of the data" +:+ LF
  +:+ "  2. OR change PV reclaim policy to Retain:" +:+ LF
  +:+ patchLine pvName
  +:+ LF +:+ "  3. OR force delete (will lose data):" +:+ LF
  +:+ "     kubectl label pvc " +:+ pvcName +:+ " -n " +:+ namespace
      +:+ " pv-safe.io/force-delete=true" +:+ LF
  +:+ "     kubectl delete pvc " +:+ pvcName +:+ " -n " +:+ namespace +:+ LF
  +:+ LF +:+ "  4. Then retry the deletion" +:+ LF.

(** [buildSuggestions] creates actionable suggestions for safe deletion. *)
Definition buildSuggestions (namespace : string) (riskyPVCs : list RiskyPVC)
    : string :=
  LF +:+ "To safely delete this resource:" +:+ LF
  +:+ "  1. Create VolumeSnapshots for the PVCs" +:+ LF
  +:+ "  2. OR change PV reclaim policy to Retain:" +:+ LF
  +:+ String.concat "" (map (λ risky, patchLine (RiskyPVC_PVName risky)) riskyPVCs)
  +:+ LF +:+ "  3. OR force delete (will lose data):" +:+ LF
  +:+ "     kubectl label namespace " +:+ namespace
      +:+ " pv-safe.io/force-delete=true" +:+ LF
  +:+ "     kubectl delete namespace " +:+ namespace +:+ LF
  +:+ LF +:+ "  4. Then retry the deletion" +:+ LF.

(** [buildPVSuggestions] creates actionable suggestions for PV deletion. *)
Definition buildPVSuggestions (pv : PersistentVolume) : string :=
  LF +:+ "To safely delete this PV:" +:+ LF
  +:+ "  1. Create a VolumeSnapshot of the data" +:+ LF
  +:+ "  2. OR change reclaim policy to Retain:" +:+ LF
  +:+ patchLine (PV_Name pv)
  +:+ LF +:+ "  3. OR force delete (will lose data):" +:+ LF
  +:+ "     kubectl label pv " +:+ PV_Name pv
      +:+ " pv-safe.io/force-delete=true" +:+ LF
  +:+ "     kubectl delete pv " +:+ PV_Name pv +:+ LF
  +:+ LF +:+ "  4. Then retry the deletion" +:+ LF.

(** The [RiskyPVC] literal built in [AssessNamespaceDeletion] and in
    [AssessPVCDeletion], with the [if snapshotInfo != nil] update applied. *)
Definition mkRiskyPVC (name namespace pvName reason : string)
    (snapshotInfo : option SnapshotInfo) : RiskyPVC :=
  {| RiskyPVC_Name := name;
     RiskyPVC_Namespace := namespace;
     RiskyPVC_PVName := pvName;
     RiskyPVC_Reason := reason;
     RiskyPVC_HasSnapshot :=
       match snapshotInfo with Some _ => true | None => false end;
     RiskyPVC_SnapshotInfo :=
       match snapshotInfo with
       | Some info => SnapshotInfo_Name info
       | None => ""
       end |}.

(** The [for _, pvc := range pvcs.Items] loop of [AssessNamespaceDeletion],
    threading the [assessment] it mutates; each [continue] is the recursive
    call with the assessment unchanged. *)
Fixpoint assessNamespaceLoop (rc : RiskCalculator)
    (items : list PersistentVolumeClaim) (assessment : RiskAssessment)
    : RiskAssessment :=
  match items with
  | [] => assessment
  | pvc :: rest =>
      if negb (String.eqb (PVC_Phase pvc) ClaimBound)
      then assessNamespaceLoop rc rest assessment
      else
        match GetPV (client rc) (PVC_VolumeName pvc) with
        | Err _ => assessNamespaceLoop rc rest assessment
        | Ok pv =>
            let '(isRisky, reason, snapshotInfo) :=
              isPVCRisky rc (PVC_Namespace pvc) (PVC_Name pvc) pv in
            if isRisky
            then
              let riskyPVC :=
                mkRiskyPVC (PVC_Name pvc) (PVC_Namespace pvc) (PV_Name pv)
                           reason snapshotInfo in
              assessNamespaceLoop rc rest
                {| IsRisky := true;
                   RiskyPVCs := RiskyPVCs assessment ++ [riskyPVC];
                   Message := Message assessment;
                   Suggestion := Suggestion assessment |}
            else assessNamespaceLoop rc rest assessment
        end
  end.

(** [AssessNamespaceDeletion] checks if deleting a namespace would lose
    data. *)
Definition AssessNamespaceDeletion (rc : RiskCalculator) (namespace : string)
    : result RiskAssessment :=
  match ListPVCs (client rc) namespace with
  | Err err =>
      Err ("failed to list PVCs in namespace " +:+ namespace +:+ ": " +:+ err)
  | Ok pvcs =>
      if Nat.eqb (length pvcs) 0
      then Ok {| IsRisky := false;
                 RiskyPVCs := [];
                 Message := "Namespace " +:+ namespace +:+ " has no PVCs";
                 Suggestion := "" |}
      else
        let assessment :=
          assessNamespaceLoop rc pvcs
            {| IsRisky := false; RiskyPVCs := [];
               Message := ""; Suggestion := "" |} in
        if IsRisky assessment
        then Ok {| IsRisky := IsRisky assessment;
                   RiskyPVCs := RiskyPVCs assessment;
                   Message :=
                     buildNamespaceBlockMessage namespace (RiskyPVCs assessment);
                   Suggestion :=
                     buildSuggestions namespace (RiskyPVCs assessment) |}
        else Ok assessment
  end.

(** [AssessPVCDeletion] checks if deleting a PVC would lose data. *)
Definition AssessPVCDeletion (rc : RiskCalculator) (namespace name : string)
    : result RiskAssessment :=
  match GetPVC (client rc) namespace name with
  | Err err =>
      Err ("failed to get PVC " +:+ namespace +:+ "/" +:+ name +:+ ": " +:+ err)
  | Ok pvc =>
      if negb (String.eqb (PVC_Phase pvc) ClaimBound)
      then Ok {| IsRisky := false;
                 RiskyPVCs := [];
                 Message := "PVC " +:+ namespace +:+ "/" +:+ name
                            +:+ " is not bound to a PV";
                 Suggestion := "" |}
      else
        match GetPV (client rc) (PVC_VolumeName pvc) with
        | Err err =>
            Err ("failed to get PV " +:+ PVC_VolumeName pvc +:+ ": " +:+ err)
        | Ok pv =>
            let '(isRisky, reason, snapshotInfo) :=
              isPVCRisky rc namespace name pv in
            if isRisky
            then
              let riskyPVC :=
                mkRiskyPVC name namespace (PV_Name pv) reason snapshotInfo in
              Ok {| IsRisky := isRisky;
                    RiskyPVCs := [riskyPVC];
                    Message := buildPVCBlockMessage riskyPVC;
                    Suggestion :=
                      buildPVCSuggestions namespace name (PV_Name pv) |}
            else
              match snapshotInfo with
              | Some _ =>
                  Ok {| IsRisky := isRisky; RiskyPVCs := [];
                        Message := reason; Suggestion := "" |}
              | None =>
                  Ok {| IsRisky := isRisky; RiskyPVCs := [];
                        Message := ""; Suggestion := "" |}
              end
        end
  end.

(** [AssessPVDeletion] checks if deleting a PV would lose data. *)
Definition AssessPVDeletion (rc : RiskCalculator) (pvName : string)
    : result RiskAssessment :=
  match GetPV (client rc) pvName with
  | Err err => Err ("failed to get PV " +:+ pvName +:+ ": " +:+ err)
  | Ok pv =>
      if isPVRisky pv
      then
        let '(namespace, pvcName) :=
          match PV_ClaimRef pv with
          | Some ref => (ObjectReference_Namespace ref, ObjectReference_Name ref)
          | None => ("", "")
          end in
        let riskyPVC :=
          {| RiskyPVC_Name := pvcName;
             RiskyPVC_Namespace := namespace;
             RiskyPVC_PVName := PV_Name pv;
             RiskyPVC_Reason :=
               "PV has " +:+ PV_ReclaimPolicy pv
                 +:+ " reclaim policy, no snapshot found";
             RiskyPVC_HasSnapshot := false;
             RiskyPVC_SnapshotInfo := "" |} in
        Ok {| IsRisky := true;
              RiskyPVCs := [riskyPVC];
              Message := buildPVBlockMessage pv riskyPVC;
              Suggestion := buildPVSuggestions pv |}
      else
        Ok {| IsRisky := false; RiskyPVCs := [];
              Message := ""; Suggestion := "" |}
  end.

(* ------------------------------------------------------------------ *)
(** ** The admission handler *)

(** [BypassLabel] is the label that allows forcing deletion. *)
Definition BypassLabel : string := "pv-safe.io/force-delete".

(** [admissionv1.Delete] and [metav1.StatusReasonForbidden]. *)
Definition Delete : string := "DELETE".
Definition StatusReasonForbidden : string := "Forbidden".

(** [metav1.Status], the four fields the handler sets. *)
Record Status := {
  Status_Status : string;
  Status_Message : string;
  Status_Reason : string;
  Status_Code : Z
}.

Record UserInfo := {
  Username : string;
  Groups : list string
}.

(** [admissionv1.AdmissionRequest]; [Request_OldObjectRaw] is
    [request.OldObject.Raw], nil when the envelope carries no prior
    object. *)
Record AdmissionRequest := {
  Request_UID : string;
  Request_Operation : string;
  Request_Kind : string;
  Request_Namespace : string;
  Request_Name : string;
  Request_UserInfo : UserInfo;
  Request_OldObjectRaw : option (list byte)
}.

(** [admissionv1.AdmissionResponse]; [Result] is a pointer. *)
Record AdmissionResponse := {
  UID : string;
  Allowed : bool;
  Result : option Status
}.

(** [admissionv1.AdmissionReview] as received: [Request] is a pointer. *)
Record AdmissionReview := {
  Review_Request : option AdmissionRequest
}.

Record Handler := {
  Handler_RiskCalculator : RiskCalculator
}.

(** What [ServeHTTP] writes: an [http.Error] with its status code, or the
    review (apiVersion admission.k8s.io/v1, kind AdmissionReview) wrapping
    the response, sent with status 200. *)
Inductive HTTPReply :=
| HTTPError (msg : string) (code : Z)
| HTTPReview (response : AdmissionResponse).

(** A [metav1.Status] literal that sets [Message] only. *)
Definition messageOnly (msg : string) : Status :=
  {| Status_Status := ""; Status_Message := msg;
     Status_Reason := ""; Status_Code := 0 |}.

Section WithJSON.

(** [json.Unmarshal(raw, &obj)] into an [unstructured.Unstructured]. *)
Variable unmarshalObject : list byte → result object.
(** [json.Unmarshal(body, &admissionReview)]. *)
Variable unmarshalReview : list byte → result AdmissionReview.

(** [hasBypassLabel] checks if the resource being deleted has the bypass
    label. *)
Definition hasBypassLabel (request : AdmissionRequest) : bool :=
  match Request_OldObjectRaw request with
  | None => false
  | Some raw =>
      match unmarshalObject raw with
      | Err _ => false
      | Ok obj =>
          match GetLabels obj with
          | None => false
          | Some labels =>
              match labels !! BypassLabel with
              | Some value => String.eqb value "true"
              | None => false
              end
          end
      end
  end.

(** The part of [assessAndDecide] after the bypass check: the [switch kind]
    that calls the calculator, and the verdict built from its answer. *)
Definition decideByRisk (h : Handler) (request : AdmissionRequest)
    : AdmissionResponse :=
  let rc := Handler_RiskCalculator h in
  let kind := Request_Kind request in
  let namespace := Request_Namespace request in
  let name := Request_Name request in
  let verdict (res : result RiskAssessment) : AdmissionResponse :=
    match res with
    | Err err =>
        {| UID := Request_UID request;
           Allowed := true;
           Result := Some (messageOnly
                             ("Risk assessment error (allowed): " +:+ err)) |}
    | Ok assessment =>
        if IsRisky assessment
        then
          let message := Message assessment +:+ Suggestion assessment in
          {| UID := Request_UID request;
             Allowed := false;
             Result := Some {| Status_Status := "Failure";
                               Status_Message := message;
                               Status_Reason := StatusReasonForbidden;
                               Status_Code := 403 |} |}
        else
          {| UID := Request_UID request;
             Allowed := true;
             Result := Some (messageOnly "Deletion allowed - safe operation") |}
    end in
  if String.eqb kind "Namespace"
  then verdict (AssessNamespaceDeletion rc name)
  else if String.eqb kind "PersistentVolumeClaim"
  then verdict (AssessPVCDeletion rc namespace name)
  else if String.eqb kind "PersistentVolume"
  then verdict (AssessPVDeletion rc name)
  else {| UID := Request_UID request; Allowed := true; Result := None |}.

(** [assessAndDecide] performs risk assessment for DELETE operations and
    decides whether to allow or block. *)
Definition assessAndDecide (h : Handler) (request : AdmissionRequest)
    : AdmissionResponse :=
  if hasBypassLabel request
  then {| UID := Request_UID request;
          Allowed := true;
          Result := Some (messageOnly
                            ("Deletion allowed via bypass label "
                             +:+ BypassLabel)) |}
  else decideByRisk h request.

(** [handleAdmissionRequest] processes an individual admission request. *)
Definition handleAdmissionRequest (h : Handler) (request : AdmissionRequest)
    : AdmissionResponse :=
  if String.eqb (Request_Operation request) Delete
  then assessAndDecide h request
  else {| UID := Request_UID request;
          Allowed := true;
          Result := Some (messageOnly "Request allowed") |}.

(** [ServeHTTP]: [body] is what [io.ReadAll(r.Body)] returns. Marshalling
    the reply cannot fail on these structs, so its error branch (status
    500) has no case here. *)
Definition ServeHTTP (h : Handler) (method : string)
    (body : result (list byte)) : HTTPReply :=
  if negb (String.eqb method "POST")
  then HTTPError "Method not allowed" 405
  else
    match body with
    | Err _ => HTTPError "Error reading request body" 400
    | Ok body =>
        match unmarshalReview body with
        | Err _ => HTTPError "Error parsing admission review" 400
        | Ok admissionReview =>
            match Review_Request admissionReview with
            | None => HTTPError "Invalid admission review" 400
            | Some request => HTTPReview (handleAdmissionRequest h request)
            end
        end
    end.

End WithJSON.

(* ------------------------------------------------------------------ *)
(** ** The rest of the package: snapshot listing, constructors, logging *)

(** The [SnapshotInfo] literal of [ListSnapshots], whose [IsReady] is the
    flag read from the snapshot. *)
Definition listedSnapshotInfo (item : object) (sourcePVC : string)
    (ready : bool) (deletionPolicy : string) : SnapshotInfo :=
  let '(restoreSize, found, _) :=
    NestedString item ["status"; "restoreSize"] in
  {| SnapshotInfo_Name := GetName item;
     SnapshotInfo_Namespace := GetNamespace item;
     SnapshotInfo_SourcePVC := sourcePVC;
     SnapshotInfo_IsReady := ready;
     SnapshotInfo_DeletionPolicy := deletionPolicy;
     SnapshotInfo_RestoreSize := if found then restoreSize else "" |}.

(** The loop of [ListSnapshots], threading the [result] slice it appends
    to. *)
Fixpoint listSnapshotsLoop (sc : SnapshotChecker) (pvcName : string)
    (items : list object) (result : list SnapshotInfo) : list SnapshotInfo :=
  match items with
  | [] => result
  | item :: rest =>
      let snapshot := item in
      let '(sourcePVC, found, err) :=
        NestedString snapshot ["spec"; "source"; "persistentVolumeClaimName"] in
      if bool_decide (err ≠ None) || negb found
         || negb (String.eqb sourcePVC pvcName)
      then listSnapshotsLoop sc pvcName rest result
      else
        let '(ready, _, _) := NestedBool snapshot ["status"; "readyToUse"] in
        let deletionPolicy := snapshotDeletionPolicy sc snapshot in
        let info := listedSnapshotInfo item sourcePVC ready deletionPolicy in
        listSnapshotsLoop sc pvcName rest (result ++ [info])
  end.

(** [ListSnapshots] lists all snapshots for a PVC. *)
Definition ListSnapshots (sc : SnapshotChecker) (namespace pvcName : string)
    : result (list SnapshotInfo) :=
  match ListVolumeSnapshots (dynamicClient sc) namespace with
  | Err err => Err ("failed to list volumesnapshots: " +:+ err)
  | Ok snapshots => Ok (listSnapshotsLoop sc pvcName snapshots [])
  end.

(** [NewRiskCalculator] creates a new risk calculator. *)
Definition NewRiskCalculator (client : KubeClient)
    (snapshotChecker : option SnapshotChecker) : RiskCalculator :=
  {| client := client; snapshotChecker := snapshotChecker |}.

(** [NewHandler] creates a new webhook handler instance. *)
Definition NewHandler (client : KubeClient)
    (snapshotChecker : option SnapshotChecker) : Handler :=
  {| Handler_RiskCalculator := NewRiskCalculator client snapshotChecker |}.

(** The handler built by [main]: [checker] is what [NewSnapshotChecker]
    returned; on an error [main] passes a nil checker to [NewHandler]. *)
Definition mainHandler (client : KubeClient)
    (checker : result SnapshotChecker) : Handler :=
  NewHandler client
    match checker with
    | Ok snapshotChecker => Some snapshotChecker
    | Err _ => None
    end.

(** *** What the handler logs

    One string per [h.Logger.Printf] call, in call order: the formatted
    message, without the prefix and the time stamp the logger adds. *)

(** The verb [%v] applied to a [[]string]. *)
Definition fmt_v_strings (l : list string) : string :=
  "[" +:+ String.concat " " l +:+ "]".

(** [logDeletion] provides specialized logging for DELETE operations on
    critical resources. *)
Definition logDeletion (request : AdmissionRequest) : list string :=
  let kind := Request_Kind request in
  let namespace := Request_Namespace request in
  let name := Request_Name request in
  let user := Username (Request_UserInfo request) in
  if String.eqb kind "Namespace"
  then [ "DELETE NAMESPACE detected!";
         "  Namespace: " +:+ name;
         "  User: " +:+ user;
         "  Action: Deletion of namespace '" +:+ name
           +:+ "' is being attempted" ]
  else if String.eqb kind "PersistentVolumeClaim"
  then [ "DELETE PVC detected!";
         "  PVC: " +:+ namespace +:+ "/" +:+ name;
         "  User: " +:+ user;
         "  Action: Deletion of PVC '" +:+ name +:+ "' in namespace '"
           +:+ namespace +:+ "' is being attempted" ]
  else if String.eqb kind "PersistentVolume"
  then [ "DELETE PV detected!";
         "  PV: " +:+ name;
         "  User: " +:+ user;
         "  Action: Deletion of PV '" +:+ name +:+ "' is being attempted" ]
  else [ "DELETE " +:+ kind +:+ " detected: " +:+ namespace +:+ "/" +:+ name
           +:+ " by " +:+ user ].

Section Logging.

Variable unmarshalObject : list byte → result object.

(** The warning [hasBypassLabel] logs when the prior object does not
    parse. *)
Definition hasBypassLabelLog (request : AdmissionRequest) : list string :=
  match Request_OldObjectRaw request with
  | None => []
  | Some raw =>
      match unmarshalObject raw with
      | Err err =>
          [ "Warning: Failed to parse OldObject for bypass check: " +:+ err ]
      | Ok _ => []
      end
  end.

(** What [assessAndDecide] logs. *)
Definition assessAndDecideLog (h : Handler) (request : AdmissionRequest)
    : list string :=
  let rc := Handler_RiskCalculator h in
  let kind := Request_Kind request in
  let namespace := Request_Namespace request in
  let name := Request_Name request in
  let verdictLog (res : result RiskAssessment) : list string :=
    match res with
    | Err err => [ "ERROR: Risk assessment failed: " +:+ err ]
    | Ok assessment =>
        if IsRisky assessment
        then [ "BLOCKING: Risky deletion detected!";
               "  Reason: " +:+ Message assessment;
               "  Risky PVCs: " +:+ fmt_d (length (RiskyPVCs assessment)) ]
        else "ALLOWING: Deletion is safe"
             :: (if negb (String.eqb (Message assessment) "")
                 then [ "  Reason: " +:+ Message assessment ]
                 else [])
    end in
  hasBypassLabelLog request ++
  if hasBypassLabel unmarshalObject request
  then [ "BYPASS: Force delete label found on " +:+ kind +:+ " "
           +:+ namespace +:+ "/" +:+ name;
         "  User: " +:+ Username (Request_UserInfo request);
         "  Allowing deletion despite potential data loss" ]
  else
    ("Assessing risk for " +:+ kind +:+ " deletion: " +:+ namespace
       +:+ "/" +:+ name)
    :: (if String.eqb kind "Namespace"
        then verdictLog (AssessNamespaceDeletion rc name)
        else if String.eqb kind "PersistentVolumeClaim"
        then verdictLog (AssessPVCDeletion rc namespace name)
        else if String.eqb kind "PersistentVolume"
        then verdictLog (AssessPVDeletion rc name)
        else [ "Unknown resource type " +:+ kind +:+ " - allowing" ]).

(** What [handleAdmissionRequest] logs. *)
Definition handleAdmissionRequestLog (h : Handler)
    (request : AdmissionRequest) : list string :=
  [ "========================================";
    "Admission Request Details:";
    "  UID: " +:+ Request_UID request;
    "  Operation: " +:+ Request_Operation request;
    "  Kind: " +:+ Request_Kind request;
    "  Namespace: " +:+ Request_Namespace request;
    "  Name: " +:+ Request_Name request;
    "  User: " +:+ Username (Request_UserInfo request);
    "  Groups: " +:+ fmt_v_strings (Groups (Request_UserInfo request));
    "========================================" ]
  ++ if String.eqb (Request_Operation request) Delete
     then logDeletion request ++ assessAndDecideLog h request
     else [].

End Logging.

(* ------------------------------------------------------------------ *)
(** ** Concrete clusters and requests

    In-memory stand-ins for the API server, in the manner of client-go's
    fake clientset: a read succeeds when the object is in the store and
    fails with a not-found error otherwise. *)

Module Fixture.

Definition fakeClient (pvcs : list PersistentVolumeClaim)
    (pvs : list PersistentVolume) : KubeClient :=
  {| GetPVC := λ namespace name,
       match List.find (λ pvc, String.eqb (PVC_Namespace pvc) namespace
                                && String.eqb (PVC_Name pvc) name) pvcs with
       | Some pvc => Ok pvc
       | None => Err ("persistentvolumeclaims " +:+ name +:+ " not found")
       end;
     ListPVCs := λ namespace,
       Ok (List.filter (λ pvc, String.eqb (PVC_Namespace pvc) namespace) pvcs);
     GetPV := λ name,
       match List.find (λ pv, String.eqb (PV_Name pv) name) pvs with
       | Some pv => Ok pv
       | None => Err ("persistentvolumes " +:+ name +:+ " not found")
       end |}.

Definition fakeDynamic (snapshots : list object)
    (classes : list (string * object)) : DynamicClient :=
  {| ListVolumeSnapshots := λ namespace,
       Ok (List.filter (λ s, String.eqb (GetNamespace s) namespace) snapshots);
     GetVolumeSnapshotClass := λ className,
       match List.find (λ c, String.eqb c.1 className) classes with
       | Some c => Ok c.2
       | None => Err ("volumesnapshotclasses " +:+ className +:+ " not found")
       end |}.

(** A VolumeSnapshot object; [className = None] leaves
    [spec.volumeSnapshotClassName] out. *)
Definition snapshot (name namespace source : string) (ready : bool)
    (className : option string) : object :=
  {[ "metadata" := VMap {[ "name" := VString name;
                           "namespace" := VString namespace ]};
     "spec" :=
       VMap (match className with
             | Some c => <["volumeSnapshotClassName" := VString c]>
             | None => id
             end
               {[ "source" :=
                    VMap {[ "persistentVolumeClaimName" := VString source ]} ]});
     "status" := VMap {[ "readyToUse" := VBool ready ]} ]}.

Definition snapshotClass (policy : string) : object :=
  {[ "deletionPolicy" := VString policy ]}.

Definition labelled (kind name : string) (labels : gmap string value) : object :=
  {[ "kind" := VString kind;
     "metadata" := VMap {[ "name" := VString name; "labels" := VMap labels ]} ]}.

(** A decoder given by a table from bodies to the objects they encode;
    any other body is a syntax error. *)
Definition tableUnmarshal {A} (table : list (string * A)) (raw : list byte)
    : result A :=
  match List.find (λ e, String.eqb e.1 (String.string_of_list_byte raw)) table with
  | Some e => Ok e.2
  | None => Err "invalid character looking for beginning of value"
  end.

Definition pv1 : PersistentVolume :=
  {| PV_Name := "pv-1"; PV_ReclaimPolicy := "Retain"; PV_ClaimRef := None |}.
Definition pv2 : PersistentVolume :=
  {| PV_Name := "pv-2"; PV_ReclaimPolicy := "Delete";
     PV_ClaimRef := Some {| ObjectReference_Namespace := "prod";
                            ObjectReference_Name := "db" |} |}.
Definition pv3 : PersistentVolume :=
  {| PV_Name := "pv-3"; PV_ReclaimPolicy := ""; PV_ClaimRef := None |}.

Definition web : PersistentVolumeClaim :=
  {| PVC_Name := "web"; PVC_Namespace := "prod";
     PVC_Phase := "Bound"; PVC_VolumeName := "pv-1" |}.
Definition db : PersistentVolumeClaim :=
  {| PVC_Name := "db"; PVC_Namespace := "prod";
     PVC_Phase := "Bound"; PVC_VolumeName := "pv-2" |}.
(** Bound to a PV that is not in the store. *)
Definition orphan : PersistentVolumeClaim :=
  {| PVC_Name := "orphan"; PVC_Namespace := "lab";
     PVC_Phase := "Bound"; PVC_VolumeName := "pv-gone" |}.

Definition snaps : list object :=
  [ snapshot "snap-0" "prod" "db" true (Some "c-delete");
    snapshot "snap-1" "prod" "db" true (Some "c-retain");
    snapshot "snap-2" "prod" "db" true (Some "c-retain") ].
Definition classes : list (string * object) :=
  [ ("c-delete", snapshotClass "Delete"); ("c-retain", snapshotClass "Retain") ].

Definition checker (snapshots : list object) : SnapshotChecker :=
  {| dynamicClient := fakeDynamic snapshots classes |}.

(** The cluster of the specification's scenarios 1 and 2: no snapshots. *)
Definition rc0 : RiskCalculator :=
  {| client := fakeClient [web; db; orphan] [pv1; pv2; pv3];
     snapshotChecker := Some (checker []) |}.
(** The same cluster with the snapshots [snaps]. *)
Definition rc1 : RiskCalculator :=
  {| client := fakeClient [web; db; orphan] [pv1; pv2; pv3];
     snapshotChecker := Some (checker snaps) |}.

Definition h0 : Handler := {| Handler_RiskCalculator := rc0 |}.

Definition objects : list (string * object) :=
  [ ("forced", labelled "PersistentVolumeClaim" "db"
                 {[ "pv-safe.io/force-delete" := VString "true" ]});
    ("Forced", labelled "PersistentVolumeClaim" "db"
                 {[ "pv-safe.io/force-delete" := VString "True" ]});
    ("plain", labelled "PersistentVolumeClaim" "db" ∅);
    ("bare", {[ "kind" := VString "PersistentVolumeClaim" ]}) ].

Definition unmarshalObject := tableUnmarshal objects.

Definition deleteRequest (kind namespace name : string)
    (raw : option string) : AdmissionRequest :=
  {| Request_UID := "uid-1";
     Request_Operation := "DELETE";
     Request_Kind := kind;
     Request_Namespace := namespace;
     Request_Name := name;
     Request_UserInfo := {| Username := "alice"; Groups := ["dev"] |};
     Request_OldObjectRaw := String.list_byte_of_string <$> raw |}.

(** DELETE of PVC prod/db, whose prior object carries the bypass label. *)
Definition forcedDeleteDb : AdmissionRequest :=
  deleteRequest "PersistentVolumeClaim" "prod" "db" (Some "forced").
(** DELETE of PVC prod/db; the envelope carries no prior object. *)
Definition deleteDb : AdmissionRequest :=
  deleteRequest "PersistentVolumeClaim" "prod" "db" None.
(** DELETE of PVC prod/web, whose prior object has no labels. *)
Definition deleteWeb : AdmissionRequest :=
  deleteRequest "PersistentVolumeClaim" "prod" "web" (Some "plain").
(** DELETE of PVC prod/gone, which the API server does not have. *)
Definition deleteGone : AdmissionRequest :=
  deleteRequest "PersistentVolumeClaim" "prod" "gone" None.

Definition reviews : list (string * AdmissionReview) :=
  [ ("delete-db",
     {| Review_Request :=
          Some (deleteRequest "PersistentVolumeClaim" "prod" "db" None) |}) ].

Definition unmarshalReview := tableUnmarshal reviews.

End Fixture.


(** More clusters and requests, built on those of [Fixture]. *)
Module Scenario.

(** A PVC that is not bound yet. *)
Definition cache : PersistentVolumeClaim :=
  {| PVC_Name := "cache"; PVC_Namespace := "prod";
     PVC_Phase := "Pending"; PVC_VolumeName := "" |}.

Definition kube : KubeClient :=
  Fixture.fakeClient [Fixture.web; Fixture.db; cache; Fixture.orphan]
                     [Fixture.pv1; Fixture.pv2; Fixture.pv3].

(** A snapshot API that is not installed: every read fails. *)
Definition noSnapshotAPI : SnapshotChecker :=
  {| dynamicClient :=
       {| ListVolumeSnapshots := λ _,
            Err "the server could not find the requested resource";
          GetVolumeSnapshotClass := λ _,
            Err "the server could not find the requested resource" |} |}.

(** The calculators: with the snapshots of [Fixture.snaps], with a
    snapshot API that fails, and the one [main] builds when the snapshot
    checker cannot be created. *)
Definition withSnapshots : RiskCalculator :=
  NewRiskCalculator kube (Some (Fixture.checker Fixture.snaps)).
Definition withFailingAPI : RiskCalculator :=
  NewRiskCalculator kube (Some noSnapshotAPI).
Definition withoutChecker : RiskCalculator :=
  Handler_RiskCalculator
    (mainHandler kube (Err "failed to create dynamic client: no config")).

(** DELETE of PV pv-2, which PVC prod/db is bound to. *)
Definition deletePv2 : AdmissionRequest :=
  Fixture.deleteRequest "PersistentVolume" "" "pv-2" None.

(** The risky record of PVC prod/db. *)
Definition riskyDb : RiskyPVC :=
  mkRiskyPVC "db" "prod" "pv-2"
    "PV has Delete reclaim policy, no snapshot found" None.

(** The first accepted snapshot of [Fixture.snaps] for PVC prod/db. *)
Definition snap1 : object :=
  Fixture.snapshot "snap-1" "prod" "db" true (Some "c-retain").

End Scenario.

(* ------------------------------------------------------------------ *)
(** ** The specification's vocabulary

    Definitions that follow the words of the specification, to be compared
    with the functions above. *)

(** The field of a decoded object at a path of keys. *)
Fixpoint fieldAt (v : value) (path : list string) : option value :=
  match path with
  | [] => Some v
  | key :: rest =>
      match v with
      | VMap m => m !! key ≫= λ v', fieldAt v' rest
      | _ => None
      end
  end.

(** The string at a path of a decoded object; empty when there is no
    string there. *)
Definition stringAt (obj : object) (path : list string) : string :=
  match fieldAt (VMap obj) path with
  | Some (VString s) => s
  | _ => ""
  end.

(** A snapshot's declared source PVC name, ready flag and snapshot-class
    reference. *)
Definition sourcePVCName (snapshot : object) : option string :=
  fieldAt (VMap snapshot) ["spec"; "source"; "persistentVolumeClaimName"]
    ≫= asString.

Definition readyFlag (snapshot : object) : bool :=
  match fieldAt (VMap snapshot) ["status"; "readyToUse"] with
  | Some (VBool b) => b
  | _ => false
  end.

Definition classReference (snapshot : object) : option string :=
  match fieldAt (VMap snapshot) ["spec"; "volumeSnapshotClassName"] with
  | Some (VString "") => None
  | Some (VString c) => Some c
  | _ => None
  end.

(** The deletion policy a snapshot's class resolves to: Unknown without a
    class reference, when the class lookup fails, and when the class states
    no policy. *)
Definition resolvedPolicy (sc : SnapshotChecker) (snapshot : object) : string :=
  match classReference snapshot with
  | None => "Unknown"
  | Some c =>
      match GetVolumeSnapshotClass (dynamicClient sc) c with
      | Err _ => "Unknown"
      | Ok class =>
          match class !! "deletionPolicy" with
          | Some (VString policy) => policy
          | _ => "Unknown"
          end
      end
  end.

(** A snapshot is accepted for a PVC when its source PVC name matches, it
    is ready, and its class resolves to deletion policy Retain. *)
Definition accepted (sc : SnapshotChecker) (pvcName : string)
    (snapshot : object) : Prop :=
  sourcePVCName snapshot = Some pvcName
  ∧ readyFlag snapshot = true
  ∧ resolvedPolicy sc snapshot = "Retain".

#[global] Instance accepted_dec sc pvcName snapshot :
  Decision (accepted sc pvcName snapshot).
Proof. unfold accepted. apply _. Defined.

(** No ready snapshot with a Retain-policy class exists for the PVC, as far
    as the calculator can see: it has no checker, the snapshot list cannot
    be read, or no listed snapshot is accepted. *)
Definition noReadyRetainSnapshot (rc : RiskCalculator)
    (namespace pvcName : string) : Prop :=
  ∀ sc items,
    snapshotChecker rc = Some sc →
    ListVolumeSnapshots (dynamicClient sc) namespace = Ok items →
    Forall (λ snapshot, ¬ accepted sc pvcName snapshot) items.

(** What one listed snapshot contributes to the result of [ListSnapshots]
    for a PVC: its description when its source is that PVC. *)
Definition listedEntry (sc : SnapshotChecker) (pvcName : string)
    (snapshot : object) : option SnapshotInfo :=
  if decide (sourcePVCName snapshot = Some pvcName)
  then Some (listedSnapshotInfo snapshot pvcName (readyFlag snapshot)
               (resolvedPolicy sc snapshot))
  else None.

(** What one listed PVC contributes to the namespace's risky list. *)
Definition riskyEntry (rc : RiskCalculator) (pvc : PersistentVolumeClaim)
    : option RiskyPVC :=
  if String.eqb (PVC_Phase pvc) "Bound"
  then
    match GetPV (client rc) (PVC_VolumeName pvc) with
    | Ok pv =>
        match isPVCRisky rc (PVC_Namespace pvc) (PVC_Name pvc) pv with
        | (true, reason, snapshotInfo) =>
            Some (mkRiskyPVC (PVC_Name pvc) (PVC_Namespace pvc) (PV_Name pv)
                             reason snapshotInfo)
        | _ => None
        end
    | Err _ => None
    end
  else None.

(** [len(l) != 0]. *)
Definition nonEmpty {A} (l : list A) : bool :=
  match l with [] => false | _ :: _ => true end.

(** The assessment of a namespace whose listing is [pvcs]. *)
Definition namespaceVerdict (rc : RiskCalculator) (namespace : string)
    (pvcs : list PersistentVolumeClaim) : RiskAssessment :=
  let risky := omap (riskyEntry rc) pvcs in
  match pvcs with
  | [] => {| IsRisky := false; RiskyPVCs := [];
             Message := "Namespace " +:+ namespace +:+ " has no PVCs";
             Suggestion := "" |}
  | _ :: _ =>
      if nonEmpty risky
      then {| IsRisky := true; RiskyPVCs := risky;
              Message := buildNamespaceBlockMessage namespace risky;
              Suggestion := buildSuggestions namespace risky |}
      else {| IsRisky := false; RiskyPVCs := [];
              Message := ""; Suggestion := "" |}
  end.

(** The calculator reading the same cluster, except that listing PVCs
    returns [pvcs]. *)
Definition withPVCList (rc : RiskCalculator)
    (pvcs : list PersistentVolumeClaim) : RiskCalculator :=
  {| client := {| GetPVC := GetPVC (client rc);
                  ListPVCs := λ _, Ok pvcs;
                  GetPV := GetPV (client rc) |};
     snapshotChecker := snapshotChecker rc |}.

(** The admission verdicts. *)
Definition allowWith (uid msg : string) : AdmissionResponse :=
  {| UID := uid; Allowed := true; Result := Some (messageOnly msg) |}.

Definition denyWith (uid msg : string) : AdmissionResponse :=
  {| UID := uid; Allowed := false;
     Result := Some {| Status_Status := "Failure"; Status_Message := msg;
                       Status_Reason := "Forbidden"; Status_Code := 403 |} |}.

(** The message of a response; empty when it carries no [Result]. *)
Definition responseMessage (r : AdmissionResponse) : string :=
  match Result r with Some st => Status_Message st | None => "" end.

(** What the calculator answers for a request, by kind. *)
Definition engineAnswer (h : Handler) (request : AdmissionRequest)
    : option (result RiskAssessment) :=
  let rc := Handler_RiskCalculator h in
  if String.eqb (Request_Kind request) "Namespace"
  then Some (AssessNamespaceDeletion rc (Request_Name request))
  else if String.eqb (Request_Kind request) "PersistentVolumeClaim"
  then Some (AssessPVCDeletion rc (Request_Namespace request)
                               (Request_Name request))
  else if String.eqb (Request_Kind request) "PersistentVolume"
  then Some (AssessPVDeletion rc (Request_Name request))
  else None.

(** The labels of a decoded prior object are well formed when
    [metadata.labels] is a map whose values are all strings, as the API
    server sends them; [labels] is then that map. *)
Definition wellFormedLabels (obj : object) (labels : gmap string value) : Prop :=
  fieldAt (VMap obj) ["metadata"; "labels"] = Some (VMap labels)
  ∧ map_Forall (λ _ v, is_Some (asString v)) labels.

(* ------------------------------------------------------------------ *)
(** ** Auxiliary lemmas *)

Section Strings.

Lemma append_cons a s t : String a s +:+ t = String a (s +:+ t).
Proof. reflexivity. Qed.
Lemma append_nil t : "" +:+ t = t.
Proof. reflexivity. Qed.

Lemma prefix_app_l sub s t :
  String.prefix sub s = true → String.prefix sub (s +:+ t) = true.
Proof.
  revert s. induction sub as [|a sub IH]; intros s.
  - intros _. by destruct (s +:+ t).
  - destruct s as [|b s]; [done|]. rewrite append_cons. cbn.
    destruct (Ascii.ascii_dec a b); [apply IH | done].
Qed.

Lemma Contains_app_l s t sub :
  strings_Contains s sub = true → strings_Contains (s +:+ t) sub = true.
Proof.
  induction s as [|a s IH].
  - cbn. rewrite orb_false_r. intros H. apply (prefix_app_l sub "" t) in H.
    rewrite append_nil in H |- *. destruct t; cbn in *; rewrite H; done.
  - rewrite append_cons. cbn. intros [H|H]%orb_true_iff.
    + apply orb_true_iff. left.
      by apply (prefix_app_l sub (String a s) t).
    + apply orb_true_iff. right. by apply IH.
Qed.

Lemma Contains_app_r s t sub :
  strings_Contains t sub = true → strings_Contains (s +:+ t) sub = true.
Proof.
  intros H. induction s as [|a s IH]; [done|].
  rewrite append_cons. cbn. rewrite IH. apply orb_true_r.
Qed.

End Strings.

(** Closes goals [strings_Contains (a +:+ ... +:+ b) lit = true] where the
    literal occurs inside one of the appended pieces. *)
Ltac contains :=
  repeat first
    [ by vm_compute
    | apply Contains_app_l; by vm_compute
    | apply Contains_app_r ].

Section Unstructured.

Lemma nestedField_fieldAt path : ∀ v,
  match fieldAt v path with
  | Some v' => nestedField v path = (v', true, None)
  | None => ∃ err, nestedField v path = (VNil, false, err)
  end.
Proof.
  induction path as [|key path IH]; intros v; [done|].
  destruct v as [| | | | |m]; cbn; eauto.
  destruct (m !! key) as [v'|]; cbn; [apply IH | eauto].
Qed.

Lemma NestedString_fieldAt obj path :
  match fieldAt (VMap obj) path with
  | Some (VString s) => NestedString obj path = (s, true, None)
  | _ => ∃ err, NestedString obj path = ("", false, err)
  end.
Proof.
  unfold NestedString, NestedFieldNoCopy.
  pose proof (nestedField_fieldAt path (VMap obj)) as H.
  destruct (fieldAt (VMap obj) path) as [v|].
  - rewrite H. by destruct v; cbn; eauto.
  - destruct H as [err ->]. cbn. eauto.
Qed.

Lemma NestedBool_fieldAt obj path :
  match fieldAt (VMap obj) path with
  | Some (VBool b) => NestedBool obj path = (b, true, None)
  | _ => ∃ err, NestedBool obj path = (false, false, err)
  end.
Proof.
  unfold NestedBool, NestedFieldNoCopy.
  pose proof (nestedField_fieldAt path (VMap obj)) as H.
  destruct (fieldAt (VMap obj) path) as [v|].
  - rewrite H. by destruct v; cbn; eauto.
  - destruct H as [err ->]. cbn. eauto.
Qed.

End Unstructured.

(** Uses a hypothesis [H : ∃ err, accessor = (_, false, err)], the failed
    case of the two lemmas above, to rewrite the accessor call. *)
Ltac accessor_failed H :=
  lazymatch type of H with
  | ex _ => let e := fresh "e" in destruct H as [e ->]; try destruct e
  end.

Lemma NestedString_stringAt obj path :
  ∃ found err,
    NestedString obj path = (stringAt obj path, found, err)
    ∧ (found = true ∨ stringAt obj path = "").
Proof.
  pose proof (NestedString_fieldAt obj path) as H. unfold stringAt.
  destruct (fieldAt (VMap obj) path) as [[| | |s| |]|];
    try (lazymatch type of H with
         | ex _ => destruct H as [e ->]; exists false, e;
                   split; [done|by right]
         end).
  exists true, None. split; [done|by left].
Qed.

(** The descriptor [HasReadySnapshot] builds, field by field. *)
Lemma snapshotInfoOf_stringAt item sourcePVC deletionPolicy :
  snapshotInfoOf item sourcePVC deletionPolicy
  = {| SnapshotInfo_Name := stringAt item ["metadata"; "name"];
       SnapshotInfo_Namespace := stringAt item ["metadata"; "namespace"];
       SnapshotInfo_SourcePVC := sourcePVC;
       SnapshotInfo_IsReady := true;
       SnapshotInfo_DeletionPolicy := deletionPolicy;
       SnapshotInfo_RestoreSize := stringAt item ["status"; "restoreSize"] |}.
Proof.
  unfold snapshotInfoOf, GetName, GetNamespace.
  destruct (NestedString_stringAt item ["metadata"; "name"])
    as (? & ? & -> & _).
  destruct (NestedString_stringAt item ["metadata"; "namespace"])
    as (? & ? & -> & _).
  destruct (NestedString_stringAt item ["status"; "restoreSize"])
    as (found & ? & -> & Hfound).
  cbn. destruct found; [done|]. by destruct Hfound as [?| ->].
Qed.

(** [GetLabels] on well-formed labels, and on an object without labels. *)
Lemma GetLabels_wellFormed obj labels :
  wellFormedLabels obj labels → GetLabels obj = Some (omap asString labels).
Proof.
  intros [Hfield Hstrings].
  unfold GetLabels, NestedStringMap, NestedFieldNoCopy.
  pose proof (nestedField_fieldAt ["metadata"; "labels"] (VMap obj)) as H.
  rewrite Hfield in H. rewrite H. cbn.
  by rewrite bool_decide_eq_true_2.
Qed.

Lemma GetLabels_absent obj :
  fieldAt (VMap obj) ["metadata"; "labels"] = None → GetLabels obj = None.
Proof.
  intros Hfield. unfold GetLabels, NestedStringMap, NestedFieldNoCopy.
  pose proof (nestedField_fieldAt ["metadata"; "labels"] (VMap obj)) as H.
  rewrite Hfield in H. destruct H as [e ->]. by destruct e.
Qed.

Section SnapshotChecker.

Context (sc : SnapshotChecker).

Lemma getSnapshotClassDeletionPolicy_class className class :
  GetVolumeSnapshotClass (dynamicClient sc) className = Ok class →
  getSnapshotClassDeletionPolicy sc className =
    Ok (match class !! "deletionPolicy" with
        | Some (VString policy) => policy
        | _ => "Unknown"
        end).
Proof.
  intros Hget. unfold getSnapshotClassDeletionPolicy. rewrite Hget.
  pose proof (NestedString_fieldAt class ["deletionPolicy"]) as H.
  unfold fieldAt in H.
  destruct (class !! "deletionPolicy") as [v|]; cbn in H.
  - destruct v; try (accessor_failed H; done).
    by rewrite H.
  - by accessor_failed H.
Qed.

Lemma snapshotDeletionPolicy_resolved snapshot :
  snapshotDeletionPolicy sc snapshot = resolvedPolicy sc snapshot.
Proof.
  unfold snapshotDeletionPolicy, resolvedPolicy, classReference.
  pose proof (NestedString_fieldAt snapshot
                ["spec"; "volumeSnapshotClassName"]) as H.
  destruct (fieldAt (VMap snapshot) ["spec"; "volumeSnapshotClassName"])
    as [v|]; [|by accessor_failed H].
  destruct v as [| | |c| |]; try (accessor_failed H; done).
  rewrite H. destruct c as [|a c]; [done|]. cbn.
  destruct (GetVolumeSnapshotClass (dynamicClient sc) (String a c))
    as [class|err] eqn:Hget.
  - by rewrite (getSnapshotClassDeletionPolicy_class _ _ Hget).
  - unfold getSnapshotClassDeletionPolicy. by rewrite Hget.
Qed.

(** One turn of the loop: an accepted snapshot is returned, any other is
    passed over. *)
Lemma hasReadySnapshotLoop_cons pvcName item rest :
  hasReadySnapshotLoop sc pvcName (item :: rest) =
    if decide (accepted sc pvcName item)
    then (true, Some (snapshotInfoOf item pvcName "Retain"), None)
    else hasReadySnapshotLoop sc pvcName rest.
Proof.
  cbn [hasReadySnapshotLoop]. rewrite snapshotDeletionPolicy_resolved.
  pose proof (NestedString_fieldAt item
                ["spec"; "source"; "persistentVolumeClaimName"]) as Hsrc.
  pose proof (NestedBool_fieldAt item ["status"; "readyToUse"]) as Hrdy.
  destruct (decide (accepted sc pvcName item)) as [(Hs & Hr & Hp)|Hn].
  - unfold sourcePVCName, readyFlag in Hs, Hr.
    destruct (fieldAt (VMap item)
                ["spec"; "source"; "persistentVolumeClaimName"])
      as [[| | |src| |]|]; try done.
    cbn in Hs. injection Hs as ->. rewrite Hsrc. cbn.
    rewrite String.eqb_refl. cbn.
    destruct (fieldAt (VMap item) ["status"; "readyToUse"])
      as [[|b| | | |]|]; try done.
    subst b. rewrite Hrdy, Hp. done.
  - unfold accepted, sourcePVCName, readyFlag in Hn.
    destruct (fieldAt (VMap item)
                ["spec"; "source"; "persistentVolumeClaimName"])
      as [[| | |src| |]|];
      try (accessor_failed Hsrc; done).
    rewrite Hsrc. cbn.
    destruct (String.eqb_spec src pvcName) as [->|Hne]; [|done]. cbn.
    destruct (fieldAt (VMap item) ["status"; "readyToUse"])
      as [[|b| | | |]|];
      try (accessor_failed Hrdy; done).
    rewrite Hrdy. destruct b; [|done]. cbn.
    destruct (String.eqb_spec (resolvedPolicy sc item) "Retain")
      as [Hp|Hp]; [|done].
    by destruct Hn.
Qed.

(** The loop returns the first accepted snapshot of the list. *)
Lemma hasReadySnapshotLoop_first pvcName pre item post :
  Forall (λ s, ¬ accepted sc pvcName s) pre →
  accepted sc pvcName item →
  hasReadySnapshotLoop sc pvcName (pre ++ item :: post) =
    (true, Some (snapshotInfoOf item pvcName "Retain"), None).
Proof.
  intros Hpre Hit. induction Hpre as [|s pre Hs _ IH].
  - cbn [app]. rewrite hasReadySnapshotLoop_cons. by rewrite decide_True.
  - rewrite <- app_comm_cons, hasReadySnapshotLoop_cons.
    by rewrite decide_False.
Qed.

Lemma hasReadySnapshotLoop_none pvcName items :
  Forall (λ s, ¬ accepted sc pvcName s) items →
  hasReadySnapshotLoop sc pvcName items = (false, None, None).
Proof.
  induction 1 as [|s items Hs _ IH]; [done|].
  rewrite hasReadySnapshotLoop_cons. by rewrite decide_False.
Qed.

(** Every list splits at its first accepted snapshot, if it has one. *)
Lemma first_accepted pvcName (items : list object) :
  Forall (λ s, ¬ accepted sc pvcName s) items
  ∨ ∃ pre item post,
      items = pre ++ item :: post
      ∧ Forall (λ s, ¬ accepted sc pvcName s) pre
      ∧ accepted sc pvcName item.
Proof.
  induction items as [|s items IH]; [by left|].
  destruct (decide (accepted sc pvcName s)) as [Hs|Hs].
  - right. by exists [], s, items.
  - destruct IH as [IH|(pre & item & post & -> & Hpre & Hit)].
    + left. by constructor.
    + right. exists (s :: pre), item, post.
      split; [done|]. split; [by constructor|done].
Qed.

End SnapshotChecker.

Section RiskCalculator.

Context (rc : RiskCalculator).

Lemma isPVCRisky_Retain namespace pvcName pv :
  PV_ReclaimPolicy pv = "Retain" →
  isPVCRisky rc namespace pvcName pv =
    (false, "PV has Retain reclaim policy", None).
Proof. intros H. unfold isPVCRisky. by rewrite H. Qed.

Lemma isPVCRisky_no_snapshot namespace pvcName pv :
  PV_ReclaimPolicy pv ≠ "Retain" →
  noReadyRetainSnapshot rc namespace pvcName →
  isPVCRisky rc namespace pvcName pv =
    (true,
     "PV has " +:+ PV_ReclaimPolicy pv +:+ " reclaim policy, no snapshot found",
     None).
Proof.
  intros Hpol Hno. unfold isPVCRisky.
  destruct (String.eqb_spec (PV_ReclaimPolicy pv)
              PersistentVolumeReclaimRetain) as [Heq|_]; [done|].
  destruct (snapshotChecker rc) as [sc|] eqn:Hsc; [|done].
  unfold HasReadySnapshot.
  destruct (ListVolumeSnapshots (dynamicClient sc) namespace)
    as [items|err] eqn:Hlist; [|done].
  by rewrite (hasReadySnapshotLoop_none sc pvcName items (Hno sc items Hsc Hlist)).
Qed.

(** [AssessPVCDeletion] once the PVC and its PV are fetched. *)
Lemma AssessPVCDeletion_bound namespace name pvc pv :
  GetPVC (client rc) namespace name = Ok pvc →
  PVC_Phase pvc = "Bound" →
  GetPV (client rc) (PVC_VolumeName pvc) = Ok pv →
  AssessPVCDeletion rc namespace name =
    match isPVCRisky rc namespace name pv with
    | (true, reason, snapshotInfo) =>
        Ok {| IsRisky := true;
              RiskyPVCs := [mkRiskyPVC name namespace (PV_Name pv)
                                       reason snapshotInfo];
              Message := buildPVCBlockMessage
                           (mkRiskyPVC name namespace (PV_Name pv)
                                       reason snapshotInfo);
              Suggestion := buildPVCSuggestions namespace name (PV_Name pv) |}
    | (false, reason, Some _) =>
        Ok {| IsRisky := false; RiskyPVCs := [];
              Message := reason; Suggestion := "" |}
    | (false, _, None) =>
        Ok {| IsRisky := false; RiskyPVCs := [];
              Message := ""; Suggestion := "" |}
    end.
Proof.
  intros Hpvc Hbound Hpv. unfold AssessPVCDeletion.
  rewrite Hpvc, Hbound.
  change (negb (String.eqb "Bound" ClaimBound)) with false.
  cbv iota. rewrite Hpv.
  by destruct (isPVCRisky rc namespace name pv) as [[[] reason] [info|]].
Qed.

(** One turn of the loop, in terms of the entry the PVC contributes. *)
Lemma assessNamespaceLoop_cons pvc items assessment :
  assessNamespaceLoop rc (pvc :: items) assessment =
    match riskyEntry rc pvc with
    | Some riskyPVC =>
        assessNamespaceLoop rc items
          {| IsRisky := true;
             RiskyPVCs := RiskyPVCs assessment ++ [riskyPVC];
             Message := Message assessment;
             Suggestion := Suggestion assessment |}
    | None => assessNamespaceLoop rc items assessment
    end.
Proof.
  cbn [assessNamespaceLoop]. unfold riskyEntry, ClaimBound.
  destruct (String.eqb (PVC_Phase pvc) "Bound"); [|done]. cbn [negb].
  destruct (GetPV (client rc) (PVC_VolumeName pvc)) as [pv|err]; [|done].
  by destruct (isPVCRisky rc (PVC_Namespace pvc) (PVC_Name pvc) pv)
    as [[[] reason] snapshotInfo].
Qed.

(** The loop appends the risky entries of the listed PVCs, in order, and
    raises the flag when there is one. *)
Lemma assessNamespaceLoop_spec items : ∀ assessment,
  assessNamespaceLoop rc items assessment =
    {| IsRisky := IsRisky assessment
                  || nonEmpty (omap (riskyEntry rc) items);
       RiskyPVCs := RiskyPVCs assessment ++ omap (riskyEntry rc) items;
       Message := Message assessment;
       Suggestion := Suggestion assessment |}.
Proof.
  induction items as [|pvc items IH]; intros [risky pvcs msg sug].
  - cbn. by rewrite orb_false_r, app_nil_r.
  - rewrite assessNamespaceLoop_cons. cbn [omap list_omap].
    destruct (riskyEntry rc pvc) as [riskyPVC|]; rewrite IH; [|done].
    cbn. by rewrite orb_true_r, <- app_assoc.
Qed.

Lemma AssessNamespaceDeletion_listed namespace pvcs :
  ListPVCs (client rc) namespace = Ok pvcs →
  AssessNamespaceDeletion rc namespace = Ok (namespaceVerdict rc namespace pvcs).
Proof.
  intros Hlist. unfold AssessNamespaceDeletion, namespaceVerdict.
  rewrite Hlist. destruct pvcs as [|pvc pvcs]; [done|].
  cbn [length Nat.eqb]. rewrite assessNamespaceLoop_spec.
  cbn [IsRisky RiskyPVCs Message Suggestion orb app].
  destruct (omap (riskyEntry rc) (pvc :: pvcs)); done.
Qed.

Lemma namespaceVerdict_flag namespace pvcs :
  IsRisky (namespaceVerdict rc namespace pvcs)
  = nonEmpty (RiskyPVCs (namespaceVerdict rc namespace pvcs))
  ∧ RiskyPVCs (namespaceVerdict rc namespace pvcs) = omap (riskyEntry rc) pvcs.
Proof.
  unfold namespaceVerdict. destruct pvcs as [|pvc pvcs]; [done|].
  by destruct (omap (riskyEntry rc) (pvc :: pvcs)).
Qed.

Lemma riskyEntry_all_skipped (pvcs : list PersistentVolumeClaim) :
  (∀ p, p ∈ pvcs → PVC_Phase p = "Bound" →
        ∃ e, GetPV (client rc) (PVC_VolumeName p) = Err e) →
  omap (riskyEntry rc) pvcs = [].
Proof.
  induction pvcs as [|p l IH]; intros Hall; [done|].
  cbn [omap list_omap].
  rewrite IH by (intros q Hq; apply Hall; by right).
  unfold riskyEntry.
  destruct (String.eqb_spec (PVC_Phase p) "Bound") as [Hp|_]; [|done].
  destruct (Hall p) as [e ->]; [by left|done|done].
Qed.

Lemma nonEmpty_true {A} (l : list A) : nonEmpty l = true ↔ l ≠ [].
Proof. by destruct l. Qed.

Lemma nonEmpty_Permutation {A} (l1 l2 : list A) :
  l1 ≡ₚ l2 → nonEmpty l1 = nonEmpty l2.
Proof.
  intros H. destruct l1, l2; try done.
  - by apply Permutation_nil_cons in H.
  - symmetry in H. by apply Permutation_nil_cons in H.
Qed.

End RiskCalculator.

(* ------------------------------------------------------------------ *)
(** ** Properties of the namespace assessment *)

(** C9: for every successful result of [AssessPVCDeletion] and of
    [AssessNamespaceDeletion], the risky-PVC list of the assessment is
    non-empty if and only if its risky flag is true. *)
Theorem C9_risky_list_nonempty_iff_flag rc namespace name assessment :
  AssessPVCDeletion rc namespace name = Ok assessment
  ∨ AssessNamespaceDeletion rc namespace = Ok assessment →
  (RiskyPVCs assessment ≠ [] ↔ IsRisky assessment = true).
Proof.
  intros [H|H].
  - unfold AssessPVCDeletion in H.
    destruct (GetPVC (client rc) namespace name) as [pvc|err]; [|done].
    destruct (negb _); [by injection H as <-|].
    destruct (GetPV (client rc) (PVC_VolumeName pvc)) as [pv|err]; [|done].
    destruct (isPVCRisky rc namespace name pv) as [[[] reason] [info|]];
      by injection H as <-.
  - destruct (ListPVCs (client rc) namespace) as [pvcs|err] eqn:Hlist.
    + rewrite (AssessNamespaceDeletion_listed rc _ _ Hlist) in H.
      injection H as <-.
      destruct (namespaceVerdict_flag rc namespace pvcs) as [-> _].
      symmetry. apply nonEmpty_true.
    + unfold AssessNamespaceDeletion in H. by rewrite Hlist in H.
Qed.

Lemma C9_risky_list_nonempty_iff_flag_witness :
  AssessNamespaceDeletion Fixture.rc0 "prod"
    = Ok (namespaceVerdict Fixture.rc0 "prod" [Fixture.web; Fixture.db])
  ∧ (RiskyPVCs (namespaceVerdict Fixture.rc0 "prod" [Fixture.web; Fixture.db])
       ≠ []
     ↔ IsRisky (namespaceVerdict Fixture.rc0 "prod" [Fixture.web; Fixture.db])
       = true).
Proof.
  split; [vm_compute; reflexivity|].
  apply (C9_risky_list_nonempty_iff_flag Fixture.rc0 "prod" "").
  right. vm_compute. reflexivity.
Defined.

(** C8: for every namespace and every permutation of the PVC list returned
    by the list call, the cluster state otherwise fixed,
    [AssessNamespaceDeletion] yields the same risky flag; the risky PVCs are
    the same up to their order, and the message differs only in the order
    in which it enumerates them. *)
Theorem C8_namespace_verdict_order_independent rc namespace pvcs1 pvcs2 :
  pvcs1 ≡ₚ pvcs2 →
  ∃ a1 a2,
    AssessNamespaceDeletion (withPVCList rc pvcs1) namespace = Ok a1
    ∧ AssessNamespaceDeletion (withPVCList rc pvcs2) namespace = Ok a2
    ∧ IsRisky a1 = IsRisky a2
    ∧ RiskyPVCs a1 ≡ₚ RiskyPVCs a2
    ∧ (IsRisky a1 = true →
       Message a1 = buildNamespaceBlockMessage namespace (RiskyPVCs a1)
       ∧ Message a2 = buildNamespaceBlockMessage namespace (RiskyPVCs a2))
    ∧ (IsRisky a1 = false → Message a1 = Message a2).
Proof.
  intros Hperm.
  exists (namespaceVerdict (withPVCList rc pvcs1) namespace pvcs1),
         (namespaceVerdict (withPVCList rc pvcs2) namespace pvcs2).
  split; [by apply AssessNamespaceDeletion_listed|].
  split; [by apply AssessNamespaceDeletion_listed|].
  assert (Hrisky : omap (riskyEntry (withPVCList rc pvcs1)) pvcs1
                   ≡ₚ omap (riskyEntry (withPVCList rc pvcs2)) pvcs2).
  { change (riskyEntry (withPVCList rc pvcs1)) with (riskyEntry rc).
    change (riskyEntry (withPVCList rc pvcs2)) with (riskyEntry rc).
    by apply omap_Permutation. }
  pose proof (nonEmpty_Permutation _ _ Hrisky) as Hflag.
  unfold namespaceVerdict.
  destruct pvcs1 as [|p1 pvcs1], pvcs2 as [|p2 pvcs2].
  - done.
  - by apply Permutation_nil_cons in Hperm.
  - symmetry in Hperm. by apply Permutation_nil_cons in Hperm.
  - rewrite <- Hflag.
    destruct (nonEmpty (omap (riskyEntry (withPVCList rc (p1 :: pvcs1)))
                             (p1 :: pvcs1))); cbn; done.
Qed.

Lemma C8_namespace_verdict_order_independent_witness :
  [Fixture.web; Fixture.db] ≡ₚ [Fixture.db; Fixture.web]
  ∧ ∃ a1 a2,
      AssessNamespaceDeletion
        (withPVCList Fixture.rc0 [Fixture.web; Fixture.db]) "prod" = Ok a1
      ∧ AssessNamespaceDeletion
          (withPVCList Fixture.rc0 [Fixture.db; Fixture.web]) "prod" = Ok a2
      ∧ IsRisky a1 = IsRisky a2
      ∧ RiskyPVCs a1 ≡ₚ RiskyPVCs a2
      ∧ (IsRisky a1 = true →
         Message a1 = buildNamespaceBlockMessage "prod" (RiskyPVCs a1)
         ∧ Message a2 = buildNamespaceBlockMessage "prod" (RiskyPVCs a2))
      ∧ (IsRisky a1 = false → Message a1 = Message a2).
Proof.
  split; [apply perm_swap|].
  apply (C8_namespace_verdict_order_independent Fixture.rc0 "prod").
  apply perm_swap.
Defined.

(** C2, as the specification states it, fails: namespace [lab] lists one
    PVC, Bound to a PV that cannot be fetched, and the assessment is not
    risky, with an empty risky list. *)
Lemma C2_unverifiable_pvc_not_recorded :
  ListPVCs (client Fixture.rc0) "lab" = Ok [Fixture.orphan]
  ∧ PVC_Phase Fixture.orphan = "Bound"
  ∧ GetPV (client Fixture.rc0) (PVC_VolumeName Fixture.orphan)
    = Err "persistentvolumes pv-gone not found"
  ∧ AssessNamespaceDeletion Fixture.rc0 "lab"
    = Ok {| IsRisky := false; RiskyPVCs := [];
            Message := ""; Suggestion := "" |}.
Proof. vm_compute. done. Qed.

(** C2, amended: during a namespace assessment, a Bound PVC whose bound-PV
    fetch fails is skipped. It adds no entry to the risky list and does not
    raise the risky flag: flag and list are those of the same listing
    without that PVC. A namespace in which every Bound PVC is of this kind
    is assessed not risky, with an empty list. *)
Theorem C2_unverifiable_pvc_is_skipped rc namespace pre pvc post err :
  ListPVCs (client rc) namespace = Ok (pre ++ pvc :: post) →
  PVC_Phase pvc = "Bound" →
  GetPV (client rc) (PVC_VolumeName pvc) = Err err →
  ∃ a a',
    AssessNamespaceDeletion rc namespace = Ok a
    ∧ AssessNamespaceDeletion (withPVCList rc (pre ++ post)) namespace = Ok a'
    ∧ IsRisky a = IsRisky a'
    ∧ RiskyPVCs a = RiskyPVCs a'
    ∧ ((∀ p, p ∈ pre ++ post → PVC_Phase p = "Bound" →
             ∃ e, GetPV (client rc) (PVC_VolumeName p) = Err e) →
       IsRisky a = false ∧ RiskyPVCs a = []).
Proof.
  intros Hlist Hbound Hget.
  exists (namespaceVerdict rc namespace (pre ++ pvc :: post)),
         (namespaceVerdict (withPVCList rc (pre ++ post)) namespace
                           (pre ++ post)).
  split; [by apply AssessNamespaceDeletion_listed|].
  split; [by apply AssessNamespaceDeletion_listed|].
  destruct (namespaceVerdict_flag rc namespace (pre ++ pvc :: post))
    as [-> ->].
  destruct (namespaceVerdict_flag (withPVCList rc (pre ++ post)) namespace
              (pre ++ post)) as [-> ->].
  change (riskyEntry (withPVCList rc (pre ++ post))) with (riskyEntry rc).
  assert (Hskip : riskyEntry rc pvc = None).
  { unfold riskyEntry. by rewrite Hbound, Hget. }
  assert (Heq : omap (riskyEntry rc) (pre ++ pvc :: post)
                = omap (riskyEntry rc) (pre ++ post)).
  { rewrite !omap_app. cbn [omap list_omap]. by rewrite Hskip. }
  rewrite Heq. split; [done|]. split; [done|].
  intros Hall.
  by rewrite (riskyEntry_all_skipped rc _ Hall).
Qed.

Lemma C2_unverifiable_pvc_is_skipped_witness :
  ListPVCs (client Fixture.rc0) "lab" = Ok ([] ++ Fixture.orphan :: [])
  ∧ ∃ a a',
      AssessNamespaceDeletion Fixture.rc0 "lab" = Ok a
      ∧ AssessNamespaceDeletion (withPVCList Fixture.rc0 ([] ++ [])) "lab"
        = Ok a'
      ∧ IsRisky a = IsRisky a'
      ∧ RiskyPVCs a = RiskyPVCs a'
      ∧ ((∀ p, p ∈ @nil PersistentVolumeClaim ++ [] →
               PVC_Phase p = "Bound" →
               ∃ e, GetPV (client Fixture.rc0) (PVC_VolumeName p) = Err e) →
         IsRisky a = false ∧ RiskyPVCs a = []).
Proof.
  split; [vm_compute; reflexivity|].
  apply (C2_unverifiable_pvc_is_skipped Fixture.rc0 "lab" [] Fixture.orphan []
           "persistentvolumes pv-gone not found").
  - vm_compute. reflexivity.
  - reflexivity.
  - vm_compute. reflexivity.
Defined.

(* ------------------------------------------------------------------ *)
(** ** Properties of the PV assessment *)

(** C4, as the specification states it, fails: for a PV with reclaim policy
    Retain, [AssessPVDeletion] returns an assessment whose message is empty,
    not the text "PV has Retain reclaim policy". *)
Lemma C4_retain_pv_has_empty_message :
  GetPV (client Fixture.rc0) "pv-1" = Ok Fixture.pv1
  ∧ PV_ReclaimPolicy Fixture.pv1 = "Retain"
  ∧ AssessPVDeletion Fixture.rc0 "pv-1"
    = Ok {| IsRisky := false; RiskyPVCs := [];
            Message := ""; Suggestion := "" |}
  ∧ "" ≠ "PV has Retain reclaim policy".
Proof. vm_compute. done. Qed.

(** C4, amended: [AssessPVDeletion] on a successfully fetched PV returns
    not risky, with an empty message, when the PV's reclaim policy is
    Retain; it returns risky when the policy is Delete, and risky when the
    policy is anything else, including unset. *)
Theorem C4_AssessPVDeletion_by_policy rc pvName pv :
  GetPV (client rc) pvName = Ok pv →
  ∃ assessment,
    AssessPVDeletion rc pvName = Ok assessment
    ∧ (PV_ReclaimPolicy pv = "Retain" →
       IsRisky assessment = false ∧ Message assessment = "")
    ∧ (PV_ReclaimPolicy pv = "Delete" → IsRisky assessment = true)
    ∧ (PV_ReclaimPolicy pv ≠ "Retain" → PV_ReclaimPolicy pv ≠ "Delete" →
       IsRisky assessment = true).
Proof.
  intros Hget. unfold AssessPVDeletion, isPVRisky. rewrite Hget.
  unfold PersistentVolumeReclaimRetain, PersistentVolumeReclaimDelete.
  destruct (String.eqb_spec (PV_ReclaimPolicy pv) "Retain") as [Hr|Hr].
  - eexists. split; [done|]. rewrite Hr. by repeat split.
  - destruct (PV_ClaimRef pv) as [ref|];
      destruct (String.eqb (PV_ReclaimPolicy pv) "Delete");
      (eexists; split; [done|]; by repeat split).
Qed.

Lemma C4_AssessPVDeletion_by_policy_witness :
  GetPV (client Fixture.rc0) "pv-3" = Ok Fixture.pv3
  ∧ ∃ assessment,
      AssessPVDeletion Fixture.rc0 "pv-3" = Ok assessment
      ∧ (PV_ReclaimPolicy Fixture.pv3 = "Retain" →
         IsRisky assessment = false ∧ Message assessment = "")
      ∧ (PV_ReclaimPolicy Fixture.pv3 = "Delete" → IsRisky assessment = true)
      ∧ (PV_ReclaimPolicy Fixture.pv3 ≠ "Retain" →
         PV_ReclaimPolicy Fixture.pv3 ≠ "Delete" →
         IsRisky assessment = true).
Proof.
  split; [vm_compute; reflexivity|].
  apply (C4_AssessPVDeletion_by_policy Fixture.rc0 "pv-3" Fixture.pv3).
  vm_compute. reflexivity.
Defined.

(* ------------------------------------------------------------------ *)
(** ** Properties of the snapshot checker *)

(** C6: [HasReadySnapshot] accepts a snapshot only when its source PVC name
    matches, its ready flag is true and its snapshot class resolves to
    deletion policy Retain. A snapshot without a class reference, or whose
    class lookup fails, gets policy Unknown and is not accepted. The first
    accepted snapshot in list order is returned: the search goes on past
    every snapshot that is not accepted, ready ones whose policy is not
    Retain included, and answers not-found when none is accepted. *)
Theorem C6_HasReadySnapshot_first_ready_retain sc namespace pvcName items :
  ListVolumeSnapshots (dynamicClient sc) namespace = Ok items →
  let described (item : object) : SnapshotInfo :=
    {| SnapshotInfo_Name := stringAt item ["metadata"; "name"];
       SnapshotInfo_Namespace := stringAt item ["metadata"; "namespace"];
       SnapshotInfo_SourcePVC := pvcName;
       SnapshotInfo_IsReady := true;
       SnapshotInfo_DeletionPolicy := "Retain";
       SnapshotInfo_RestoreSize := stringAt item ["status"; "restoreSize"] |} in
  (∀ info,
     HasReadySnapshot sc namespace pvcName = (true, Some info, None) →
     ∃ pre item post,
       items = pre ++ item :: post
       ∧ Forall (λ s, ¬ accepted sc pvcName s) pre
       ∧ accepted sc pvcName item
       ∧ info = described item)
  ∧ (∀ pre item post,
       items = pre ++ item :: post →
       Forall (λ s, ¬ accepted sc pvcName s) pre →
       accepted sc pvcName item →
       HasReadySnapshot sc namespace pvcName
       = (true, Some (described item), None))
  ∧ (Forall (λ s, ¬ accepted sc pvcName s) items ↔
     HasReadySnapshot sc namespace pvcName = (false, None, None))
  ∧ (∀ snapshot,
       classReference snapshot = None →
       snapshotDeletionPolicy sc snapshot = UnknownDeletionPolicy
       ∧ ¬ accepted sc pvcName snapshot)
  ∧ (∀ snapshot className err,
       classReference snapshot = Some className →
       GetVolumeSnapshotClass (dynamicClient sc) className = Err err →
       snapshotDeletionPolicy sc snapshot = UnknownDeletionPolicy
       ∧ ¬ accepted sc pvcName snapshot).
Proof.
  intros Hlist described. unfold HasReadySnapshot. rewrite Hlist.
  assert (Hdescribed : ∀ item,
            snapshotInfoOf item pvcName "Retain" = described item)
    by (intros item; apply snapshotInfoOf_stringAt).
  repeat apply conj.
  - intros info Hres.
    destruct (first_accepted sc pvcName items)
      as [Hnone|(pre & item & post & -> & Hpre & Hit)].
    + by rewrite (hasReadySnapshotLoop_none sc pvcName items Hnone) in Hres.
    + rewrite (hasReadySnapshotLoop_first sc pvcName pre item post Hpre Hit)
        in Hres.
      injection Hres as <-. exists pre, item, post.
      by rewrite Hdescribed.
  - intros pre item post -> Hpre Hit. rewrite <- Hdescribed.
    by apply hasReadySnapshotLoop_first.
  - apply hasReadySnapshotLoop_none.
  - intros Hres.
    destruct (first_accepted sc pvcName items)
      as [Hnone|(pre & item & post & -> & Hpre & Hit)]; [done|].
    by rewrite (hasReadySnapshotLoop_first sc pvcName pre item post Hpre Hit)
      in Hres.
  - intros snapshot Href. rewrite snapshotDeletionPolicy_resolved.
    unfold accepted, resolvedPolicy. rewrite Href.
    split; [done|]. by intros (_ & _ & ?).
  - intros snapshot className err Href Hget.
    rewrite snapshotDeletionPolicy_resolved.
    unfold accepted, resolvedPolicy. rewrite Href, Hget.
    split; [done|]. by intros (_ & _ & ?).
Qed.

Lemma C6_HasReadySnapshot_first_ready_retain_witness :
  ListVolumeSnapshots (dynamicClient (Fixture.checker Fixture.snaps)) "prod"
    = Ok Fixture.snaps
  ∧ HasReadySnapshot (Fixture.checker Fixture.snaps) "prod" "db"
    = (true,
       Some {| SnapshotInfo_Name := "snap-1";
               SnapshotInfo_Namespace := "prod";
               SnapshotInfo_SourcePVC := "db";
               SnapshotInfo_IsReady := true;
               SnapshotInfo_DeletionPolicy := "Retain";
               SnapshotInfo_RestoreSize := "" |},
       None).
Proof.
  split; [vm_compute; reflexivity|].
  refine (proj1 (proj2 (C6_HasReadySnapshot_first_ready_retain
                          (Fixture.checker Fixture.snaps) "prod" "db"
                          Fixture.snaps _))
            [Fixture.snapshot "snap-0" "prod" "db" true (Some "c-delete")]
            (Fixture.snapshot "snap-1" "prod" "db" true (Some "c-retain"))
            [Fixture.snapshot "snap-2" "prod" "db" true (Some "c-retain")]
            _ _ _).
  - vm_compute. reflexivity.
  - reflexivity.
  - constructor; [|constructor]. by intros (_ & _ & ?).
  - vm_compute. done.
Defined.

(* ------------------------------------------------------------------ *)
(** ** Properties of the admission handler *)

Section Handler.

Context (unmarshalObject : list byte → result object).
Context (h : Handler).

Lemma handleAdmissionRequest_delete request :
  Request_Operation request = "DELETE" →
  handleAdmissionRequest unmarshalObject h request
  = assessAndDecide unmarshalObject h request.
Proof. intros H. unfold handleAdmissionRequest. by rewrite H. Qed.

Lemma assessAndDecide_no_bypass request :
  hasBypassLabel unmarshalObject request = false →
  assessAndDecide unmarshalObject h request = decideByRisk h request.
Proof. intros H. unfold assessAndDecide. by rewrite H. Qed.

(** The verdict after the bypass check, from the calculator's answer. *)
Lemma decideByRisk_engineAnswer request :
  decideByRisk h request =
    match engineAnswer h request with
    | None => {| UID := Request_UID request; Allowed := true; Result := None |}
    | Some (Err err) =>
        allowWith (Request_UID request)
                  ("Risk assessment error (allowed): " +:+ err)
    | Some (Ok assessment) =>
        if IsRisky assessment
        then denyWith (Request_UID request)
                      (Message assessment +:+ Suggestion assessment)
        else allowWith (Request_UID request)
                       "Deletion allowed - safe operation"
    end.
Proof.
  unfold decideByRisk, engineAnswer.
  destruct (String.eqb (Request_Kind request) "Namespace"); [done|].
  destruct (String.eqb (Request_Kind request) "PersistentVolumeClaim");
    [done|].
  by destruct (String.eqb (Request_Kind request) "PersistentVolume").
Qed.

Lemma engineAnswer_PVC request :
  Request_Kind request = "PersistentVolumeClaim" →
  engineAnswer h request
  = Some (AssessPVCDeletion (Handler_RiskCalculator h)
            (Request_Namespace request) (Request_Name request)).
Proof. intros H. unfold engineAnswer. rewrite H. reflexivity. Qed.

(** The label test, in terms of the decoded prior object. *)
Lemma hasBypassLabel_true request :
  hasBypassLabel unmarshalObject request = true ↔
  ∃ raw obj labels,
    Request_OldObjectRaw request = Some raw
    ∧ unmarshalObject raw = Ok obj
    ∧ GetLabels obj = Some labels
    ∧ labels !! BypassLabel = Some "true".
Proof.
  unfold hasBypassLabel. split.
  - destruct (Request_OldObjectRaw request) as [raw|]; [|done].
    destruct (unmarshalObject raw) as [obj|err] eqn:Hobj; [|done].
    destruct (GetLabels obj) as [labels|] eqn:Hlabels; [|done].
    destruct (labels !! BypassLabel) as [value|] eqn:Hvalue; [|done].
    intros ->%String.eqb_eq. by exists raw, obj, labels.
  - intros (raw & obj & labels & -> & -> & -> & ->). done.
Qed.

End Handler.

(** C1, as the specification states it, fails: the DELETE request for PVC
    prod/db, Bound to a PV with reclaim policy Delete and without any
    snapshot, is allowed when the prior object carries the bypass label. *)
Lemma C1_bypass_label_allows_risky_pvc :
  Request_Operation Fixture.forcedDeleteDb = "DELETE"
  ∧ Request_Kind Fixture.forcedDeleteDb = "PersistentVolumeClaim"
  ∧ GetPVC (client Fixture.rc0) "prod" "db" = Ok Fixture.db
  ∧ PVC_Phase Fixture.db = "Bound"
  ∧ GetPV (client Fixture.rc0) (PVC_VolumeName Fixture.db) = Ok Fixture.pv2
  ∧ PV_ReclaimPolicy Fixture.pv2 = "Delete"
  ∧ noReadyRetainSnapshot Fixture.rc0 "prod" "db"
  ∧ handleAdmissionRequest Fixture.unmarshalObject Fixture.h0
      Fixture.forcedDeleteDb
    = allowWith "uid-1"
        "Deletion allowed via bypass label pv-safe.io/force-delete".
Proof.
  repeat apply conj; try (vm_compute; reflexivity).
  intros sc items [= <-] [= <-]. constructor.
Qed.

(** C1, amended: for every DELETE admission request on a PVC whose prior
    object does not carry the bypass label, when the PVC is Bound to a PV
    whose reclaim policy is Delete and no ready snapshot with a
    Retain-policy snapshot class exists for it, the verdict is deny:
    Allowed = false with status Failure, reason Forbidden, code 403, and a
    message that is the engine's block message, which contains "no snapshot
    found", followed by the remediation suggestion. *)
Theorem C1_risky_pvc_is_denied unmarshalObject h request pvc pv :
  Request_Operation request = "DELETE" →
  Request_Kind request = "PersistentVolumeClaim" →
  hasBypassLabel unmarshalObject request = false →
  GetPVC (client (Handler_RiskCalculator h))
         (Request_Namespace request) (Request_Name request) = Ok pvc →
  PVC_Phase pvc = "Bound" →
  GetPV (client (Handler_RiskCalculator h)) (PVC_VolumeName pvc) = Ok pv →
  PV_ReclaimPolicy pv = "Delete" →
  noReadyRetainSnapshot (Handler_RiskCalculator h)
    (Request_Namespace request) (Request_Name request) →
  ∃ blockMessage suggestion,
    handleAdmissionRequest unmarshalObject h request
    = {| UID := Request_UID request;
         Allowed := false;
         Result := Some {| Status_Status := "Failure";
                           Status_Message := blockMessage +:+ suggestion;
                           Status_Reason := "Forbidden";
                           Status_Code := 403 |} |}
    ∧ blockMessage
      = buildPVCBlockMessage
          (mkRiskyPVC (Request_Name request) (Request_Namespace request)
             (PV_Name pv) "PV has Delete reclaim policy, no snapshot found"
             None)
    ∧ suggestion
      = buildPVCSuggestions (Request_Namespace request) (Request_Name request)
                            (PV_Name pv)
    ∧ strings_Contains blockMessage "no snapshot found" = true.
Proof.
  intros Hop Hkind Hbypass Hpvc Hbound Hpv Hpol Hsnap.
  do 2 eexists. split; [|split; [reflexivity|split; [reflexivity|]]].
  - rewrite (handleAdmissionRequest_delete _ _ _ Hop).
    rewrite (assessAndDecide_no_bypass _ _ _ Hbypass).
    rewrite decideByRisk_engineAnswer, (engineAnswer_PVC _ _ Hkind).
    rewrite (AssessPVCDeletion_bound _ _ _ _ _ Hpvc Hbound Hpv).
    rewrite (isPVCRisky_no_snapshot _ _ _ pv) by (by rewrite ?Hpol).
    rewrite Hpol. reflexivity.
  - unfold buildPVCBlockMessage, mkRiskyPVC. cbn [RiskyPVC_Reason].
    contains.
Qed.

Lemma C1_risky_pvc_is_denied_witness :
  hasBypassLabel Fixture.unmarshalObject Fixture.deleteDb = false
  ∧ ∃ blockMessage suggestion,
      handleAdmissionRequest Fixture.unmarshalObject Fixture.h0 Fixture.deleteDb
      = {| UID := "uid-1";
           Allowed := false;
           Result := Some {| Status_Status := "Failure";
                             Status_Message := blockMessage +:+ suggestion;
                             Status_Reason := "Forbidden";
                             Status_Code := 403 |} |}
      ∧ blockMessage
        = buildPVCBlockMessage
            (mkRiskyPVC "db" "prod" "pv-2"
               "PV has Delete reclaim policy, no snapshot found" None)
      ∧ suggestion = buildPVCSuggestions "prod" "db" "pv-2"
      ∧ strings_Contains blockMessage "no snapshot found" = true.
Proof.
  split; [reflexivity|].
  apply (C1_risky_pvc_is_denied Fixture.unmarshalObject Fixture.h0
           Fixture.deleteDb Fixture.db Fixture.pv2);
    try (vm_compute; reflexivity).
  intros sc items [= <-] [= <-]. constructor.
Defined.

(** C5, as the specification states it, fails in its second half: the
    DELETE request for PVC prod/web, Bound to a PV with reclaim policy
    Retain, is allowed, but the response message does not contain
    "Retain". *)
Lemma C5_retain_pvc_message_lacks_Retain :
  Request_Operation Fixture.deleteWeb = "DELETE"
  ∧ Request_Kind Fixture.deleteWeb = "PersistentVolumeClaim"
  ∧ GetPVC (client Fixture.rc0) "prod" "web" = Ok Fixture.web
  ∧ PVC_Phase Fixture.web = "Bound"
  ∧ GetPV (client Fixture.rc0) (PVC_VolumeName Fixture.web) = Ok Fixture.pv1
  ∧ PV_ReclaimPolicy Fixture.pv1 = "Retain"
  ∧ handleAdmissionRequest Fixture.unmarshalObject Fixture.h0 Fixture.deleteWeb
    = allowWith "uid-1" "Deletion allowed - safe operation"
  ∧ strings_Contains
      (responseMessage
         (handleAdmissionRequest Fixture.unmarshalObject Fixture.h0
            Fixture.deleteWeb))
      "Retain" = false.
Proof. vm_compute. done. Qed.

(** C5, amended: for every DELETE admission request on a PVC that is Bound
    to a PV whose reclaim policy is Retain, the verdict is allow. The
    response message is "Deletion allowed - safe operation", or the message
    naming the bypass label when the prior object carries it; neither
    contains "Retain". *)
Theorem C5_retain_pvc_is_allowed unmarshalObject h request pvc pv :
  Request_Operation request = "DELETE" →
  Request_Kind request = "PersistentVolumeClaim" →
  GetPVC (client (Handler_RiskCalculator h))
         (Request_Namespace request) (Request_Name request) = Ok pvc →
  PVC_Phase pvc = "Bound" →
  GetPV (client (Handler_RiskCalculator h)) (PVC_VolumeName pvc) = Ok pv →
  PV_ReclaimPolicy pv = "Retain" →
  ∃ message,
    handleAdmissionRequest unmarshalObject h request
    = {| UID := Request_UID request;
         Allowed := true;
         Result := Some {| Status_Status := ""; Status_Message := message;
                           Status_Reason := ""; Status_Code := 0 |} |}
    ∧ message
      = (if hasBypassLabel unmarshalObject request
         then "Deletion allowed via bypass label pv-safe.io/force-delete"
         else "Deletion allowed - safe operation")
    ∧ strings_Contains message "Retain" = false.
Proof.
  intros Hop Hkind Hpvc Hbound Hpv Hpol.
  eexists. split; [|split; [reflexivity|]].
  - rewrite (handleAdmissionRequest_delete _ _ _ Hop). unfold assessAndDecide.
    destruct (hasBypassLabel unmarshalObject request); [reflexivity|].
    rewrite decideByRisk_engineAnswer, (engineAnswer_PVC _ _ Hkind).
    rewrite (AssessPVCDeletion_bound _ _ _ _ _ Hpvc Hbound Hpv).
    by rewrite (isPVCRisky_Retain _ _ _ _ Hpol).
  - by destruct (hasBypassLabel unmarshalObject request).
Qed.

Lemma C5_retain_pvc_is_allowed_witness :
  GetPVC (client Fixture.rc0) "prod" "web" = Ok Fixture.web
  ∧ ∃ message,
      handleAdmissionRequest Fixture.unmarshalObject Fixture.h0
        Fixture.deleteWeb
      = {| UID := "uid-1";
           Allowed := true;
           Result := Some {| Status_Status := ""; Status_Message := message;
                             Status_Reason := ""; Status_Code := 0 |} |}
      ∧ message
        = (if hasBypassLabel Fixture.unmarshalObject Fixture.deleteWeb
           then "Deletion allowed via bypass label pv-safe.io/force-delete"
           else "Deletion allowed - safe operation")
      ∧ strings_Contains message "Retain" = false.
Proof.
  split; [vm_compute; reflexivity|].
  apply (C5_retain_pvc_is_allowed Fixture.unmarshalObject Fixture.h0
           Fixture.deleteWeb Fixture.web Fixture.pv1);
    vm_compute; reflexivity.
Defined.

(** C3: for every DELETE admission request whose prior-object labels contain
    the key pv-safe.io/force-delete with the value "true", the verdict is
    allow, with a message naming the bypass label. For any other value of
    the label ("True" included), when the label is absent, and when the
    prior-object bytes fail to parse, there is no bypass and the normal
    risk assessment proceeds: the verdict is the one the calculator's
    answer for the request's kind gives, a denial when the assessment is
    risky. *)
Theorem C3_bypass_label_is_exact unmarshalObject h request :
  Request_Operation request = "DELETE" →
  let assessed : AdmissionResponse :=
    match engineAnswer h request with
    | None => {| UID := Request_UID request; Allowed := true; Result := None |}
    | Some (Err err) =>
        {| UID := Request_UID request;
           Allowed := true;
           Result := Some {| Status_Status := "";
                             Status_Message :=
                               "Risk assessment error (allowed): " +:+ err;
                             Status_Reason := "";
                             Status_Code := 0 |} |}
    | Some (Ok assessment) =>
        if IsRisky assessment
        then {| UID := Request_UID request;
                Allowed := false;
                Result := Some {| Status_Status := "Failure";
                                  Status_Message :=
                                    Message assessment
                                      +:+ Suggestion assessment;
                                  Status_Reason := "Forbidden";
                                  Status_Code := 403 |} |}
        else {| UID := Request_UID request;
                Allowed := true;
                Result := Some {| Status_Status := "";
                                  Status_Message :=
                                    "Deletion allowed - safe operation";
                                  Status_Reason := "";
                                  Status_Code := 0 |} |}
    end in
  (∀ raw obj labels,
     Request_OldObjectRaw request = Some raw →
     unmarshalObject raw = Ok obj →
     wellFormedLabels obj labels →
     labels !! "pv-safe.io/force-delete" = Some (VString "true") →
     handleAdmissionRequest unmarshalObject h request
     = {| UID := Request_UID request;
          Allowed := true;
          Result := Some {| Status_Status := "";
                            Status_Message :=
                              "Deletion allowed via bypass label pv-safe.io/force-delete";
                            Status_Reason := "";
                            Status_Code := 0 |} |})
  ∧ (∀ raw obj labels value,
       Request_OldObjectRaw request = Some raw →
       unmarshalObject raw = Ok obj →
       wellFormedLabels obj labels →
       labels !! "pv-safe.io/force-delete" = Some (VString value) →
       value ≠ "true" →
       hasBypassLabel unmarshalObject request = false
       ∧ handleAdmissionRequest unmarshalObject h request = assessed)
  ∧ (Request_OldObjectRaw request = None
     ∨ (∃ raw obj,
          Request_OldObjectRaw request = Some raw
          ∧ unmarshalObject raw = Ok obj
          ∧ (fieldAt (VMap obj) ["metadata"; "labels"] = None
             ∨ ∃ labels, wellFormedLabels obj labels
                         ∧ labels !! "pv-safe.io/force-delete" = None)) →
     hasBypassLabel unmarshalObject request = false
     ∧ handleAdmissionRequest unmarshalObject h request = assessed)
  ∧ (∀ raw err,
       Request_OldObjectRaw request = Some raw →
       unmarshalObject raw = Err err →
       hasBypassLabel unmarshalObject request = false
       ∧ handleAdmissionRequest unmarshalObject h request = assessed).
Proof.
  intros Hop assessed.
  rewrite (handleAdmissionRequest_delete _ _ _ Hop).
  assert (Hno : hasBypassLabel unmarshalObject request = false →
                hasBypassLabel unmarshalObject request = false
                ∧ assessAndDecide unmarshalObject h request = assessed).
  { intros H. split; [done|].
    rewrite (assessAndDecide_no_bypass _ _ _ H), decideByRisk_engineAnswer.
    subst assessed.
    by destruct (engineAnswer h request) as [[assessment|err]|]. }
  repeat apply conj.
  - intros raw obj labels Hraw Hobj Hlabels Hvalue.
    assert (Hyes : hasBypassLabel unmarshalObject request = true).
    { apply hasBypassLabel_true.
      exists raw, obj, (omap asString labels).
      repeat split; [done|done|by apply GetLabels_wellFormed|].
      unfold BypassLabel. by rewrite lookup_omap, Hvalue. }
    unfold assessAndDecide. by rewrite Hyes.
  - intros raw obj labels value Hraw Hobj Hlabels Hvalue Hne. apply Hno.
    unfold hasBypassLabel, BypassLabel.
    rewrite Hraw, Hobj, (GetLabels_wellFormed _ _ Hlabels).
    rewrite lookup_omap, Hvalue. cbn. by apply String.eqb_neq.
  - intros Habsent. apply Hno. unfold hasBypassLabel, BypassLabel.
    destruct Habsent as [->|(raw & obj & -> & -> & Hl)]; [done|].
    destruct Hl as [Hnone|(labels & Hlabels & Hvalue)].
    + by rewrite (GetLabels_absent _ Hnone).
    + rewrite (GetLabels_wellFormed _ _ Hlabels).
      by rewrite lookup_omap, Hvalue.
  - intros raw err Hraw Herr. apply Hno.
    unfold hasBypassLabel. by rewrite Hraw, Herr.
Qed.

Lemma C3_bypass_label_is_exact_witness :
  Request_Operation Fixture.forcedDeleteDb = "DELETE"
  ∧ handleAdmissionRequest Fixture.unmarshalObject Fixture.h0
      Fixture.forcedDeleteDb
    = {| UID := "uid-1";
         Allowed := true;
         Result := Some {| Status_Status := "";
                           Status_Message :=
                             "Deletion allowed via bypass label pv-safe.io/force-delete";
                           Status_Reason := "";
                           Status_Code := 0 |} |}
  ∧ handleAdmissionRequest Fixture.unmarshalObject Fixture.h0
      (Fixture.deleteRequest "PersistentVolumeClaim" "prod" "db"
         (Some "Forced"))
    = {| UID := "uid-1";
         Allowed := false;
         Result := Some {| Status_Status := "Failure";
                           Status_Message :=
                             buildPVCBlockMessage
                               (mkRiskyPVC "db" "prod" "pv-2"
                                  "PV has Delete reclaim policy, no snapshot found"
                                  None)
                               +:+ buildPVCSuggestions "prod" "db" "pv-2";
                           Status_Reason := "Forbidden";
                           Status_Code := 403 |} |}.
Proof.
  split; [reflexivity|]. split.
  - refine (proj1 (C3_bypass_label_is_exact Fixture.unmarshalObject
                     Fixture.h0 Fixture.forcedDeleteDb _)
              (String.list_byte_of_string "forced")
              (Fixture.labelled "PersistentVolumeClaim" "db"
                 {[ "pv-safe.io/force-delete" := VString "true" ]})
              {[ "pv-safe.io/force-delete" := VString "true" ]} _ _ _ _);
      try (vm_compute; reflexivity).
    split; [vm_compute; reflexivity|].
    apply map_Forall_singleton. by eexists.
  - refine (eq_trans
              (proj2 (proj1 (proj2 (C3_bypass_label_is_exact
                                      Fixture.unmarshalObject Fixture.h0
                                      (Fixture.deleteRequest
                                         "PersistentVolumeClaim" "prod" "db"
                                         (Some "Forced")) _))
                        (String.list_byte_of_string "Forced")
                        (Fixture.labelled "PersistentVolumeClaim" "db"
                           {[ "pv-safe.io/force-delete" := VString "True" ]})
                        {[ "pv-safe.io/force-delete" := VString "True" ]}
                        "True" _ _ _ _ _)) _);
      try (vm_compute; reflexivity).
    + split; [vm_compute; reflexivity|].
      apply map_Forall_singleton. by eexists.
    + discriminate.
Defined.

(** C7: for every DELETE admission request routed to the engine, if the
    engine returns an error, the verdict is allow, with the message
    "Risk assessment error (allowed): " followed by the error, which names
    its cause: the PVC fetch, the PV fetch or the PVC listing that
    failed. *)
Theorem C7_engine_error_fails_open unmarshalObject h request err :
  Request_Operation request = "DELETE" →
  hasBypassLabel unmarshalObject request = false →
  (Request_Kind request = "Namespace"
   ∧ AssessNamespaceDeletion (Handler_RiskCalculator h) (Request_Name request)
     = Err err)
  ∨ (Request_Kind request = "PersistentVolumeClaim"
     ∧ AssessPVCDeletion (Handler_RiskCalculator h)
         (Request_Namespace request) (Request_Name request) = Err err)
  ∨ (Request_Kind request = "PersistentVolume"
     ∧ AssessPVDeletion (Handler_RiskCalculator h) (Request_Name request)
       = Err err) →
  handleAdmissionRequest unmarshalObject h request
  = {| UID := Request_UID request;
       Allowed := true;
       Result := Some {| Status_Status := "";
                         Status_Message :=
                           "Risk assessment error (allowed): " +:+ err;
                         Status_Reason := "";
                         Status_Code := 0 |} |}
  ∧ (∀ rc namespace name cause,
       GetPVC (client rc) namespace name = Err cause →
       AssessPVCDeletion rc namespace name
       = Err ("failed to get PVC " +:+ namespace +:+ "/" +:+ name +:+ ": "
              +:+ cause))
  ∧ (∀ rc namespace name pvc cause,
       GetPVC (client rc) namespace name = Ok pvc →
       PVC_Phase pvc = "Bound" →
       GetPV (client rc) (PVC_VolumeName pvc) = Err cause →
       AssessPVCDeletion rc namespace name
       = Err ("failed to get PV " +:+ PVC_VolumeName pvc +:+ ": " +:+ cause))
  ∧ (∀ rc name cause,
       GetPV (client rc) name = Err cause →
       AssessPVDeletion rc name
       = Err ("failed to get PV " +:+ name +:+ ": " +:+ cause))
  ∧ (∀ rc namespace cause,
       ListPVCs (client rc) namespace = Err cause →
       AssessNamespaceDeletion rc namespace
       = Err ("failed to list PVCs in namespace " +:+ namespace +:+ ": "
              +:+ cause)).
Proof.
  intros Hop Hbypass Herr. repeat apply conj.
  - rewrite (handleAdmissionRequest_delete _ _ _ Hop).
    rewrite (assessAndDecide_no_bypass _ _ _ Hbypass).
    unfold decideByRisk.
    destruct Herr as [[-> ->]|[[-> ->]|[-> ->]]]; reflexivity.
  - intros rc namespace name cause H. unfold AssessPVCDeletion.
    by rewrite H.
  - intros rc namespace name pvc cause Hpvc Hbound Hpv.
    unfold AssessPVCDeletion. rewrite Hpvc, Hbound.
    change (negb (String.eqb "Bound" ClaimBound)) with false.
    cbv iota. by rewrite Hpv.
  - intros rc name cause H. unfold AssessPVDeletion. by rewrite H.
  - intros rc namespace cause H. unfold AssessNamespaceDeletion.
    by rewrite H.
Qed.

Lemma C7_engine_error_fails_open_witness :
  hasBypassLabel Fixture.unmarshalObject Fixture.deleteGone = false
  ∧ AssessPVCDeletion Fixture.rc0 "prod" "gone"
    = Err "failed to get PVC prod/gone: persistentvolumeclaims gone not found"
  ∧ handleAdmissionRequest Fixture.unmarshalObject Fixture.h0
      Fixture.deleteGone
    = allowWith "uid-1"
        "Risk assessment error (allowed): failed to get PVC prod/gone: persistentvolumeclaims gone not found".
Proof.
  split; [reflexivity|]. split; [vm_compute; reflexivity|].
  refine (proj1 (C7_engine_error_fails_open Fixture.unmarshalObject
                   Fixture.h0 Fixture.deleteGone
                   "failed to get PVC prod/gone: persistentvolumeclaims gone not found"
                   _ _ _)).
  - reflexivity.
  - reflexivity.
  - right. left. split; vm_compute; reflexivity.
Defined.

(** C10: for every DELETE admission request whose envelope carries no
    prior-object bytes, or whose prior object has no labels, the bypass
    check answers false (it has no error to return) and the request goes on
    to the normal risk assessment: the verdict is the one the calculator's
    answer for the request's kind gives. The missing prior object causes no
    denial of its own, the request being denied exactly when the
    calculator's assessment is risky, and no error reply: the handler
    answers a well-formed POST with the admission review carrying that
    verdict. *)
Theorem C10_missing_prior_object_is_no_bypass
    unmarshalObject unmarshalReview h request :
  Request_Operation request = "DELETE" →
  Request_OldObjectRaw request = None
  ∨ (∃ raw obj,
       Request_OldObjectRaw request = Some raw
       ∧ unmarshalObject raw = Ok obj
       ∧ (GetLabels obj = None ∨ GetLabels obj = Some ∅)) →
  let assessed : AdmissionResponse :=
    match engineAnswer h request with
    | None => {| UID := Request_UID request; Allowed := true; Result := None |}
    | Some (Err err) =>
        {| UID := Request_UID request;
           Allowed := true;
           Result := Some {| Status_Status := "";
                             Status_Message :=
                               "Risk assessment error (allowed): " +:+ err;
                             Status_Reason := "";
                             Status_Code := 0 |} |}
    | Some (Ok assessment) =>
        if IsRisky assessment
        then {| UID := Request_UID request;
                Allowed := false;
                Result := Some {| Status_Status := "Failure";
                                  Status_Message :=
                                    Message assessment
                                      +:+ Suggestion assessment;
                                  Status_Reason := "Forbidden";
                                  Status_Code := 403 |} |}
        else {| UID := Request_UID request;
                Allowed := true;
                Result := Some {| Status_Status := "";
                                  Status_Message :=
                                    "Deletion allowed - safe operation";
                                  Status_Reason := "";
                                  Status_Code := 0 |} |}
    end in
  hasBypassLabel unmarshalObject request = false
  ∧ handleAdmissionRequest unmarshalObject h request = assessed
  ∧ (Allowed (handleAdmissionRequest unmarshalObject h request) = false ↔
     ∃ assessment,
       engineAnswer h request = Some (Ok assessment)
       ∧ IsRisky assessment = true)
  ∧ (∀ body,
       unmarshalReview body = Ok {| Review_Request := Some request |} →
       ServeHTTP unmarshalObject unmarshalReview h "POST" (Ok body)
       = HTTPReview assessed).
Proof.
  intros Hop Hprior assessed.
  assert (Hno : hasBypassLabel unmarshalObject request = false).
  { unfold hasBypassLabel.
    destruct Hprior as [->|(raw & obj & -> & -> & [->| ->])]; done. }
  assert (Hhandle : handleAdmissionRequest unmarshalObject h request
                    = assessed).
  { rewrite (handleAdmissionRequest_delete _ _ _ Hop).
    rewrite (assessAndDecide_no_bypass _ _ _ Hno), decideByRisk_engineAnswer.
    subst assessed.
    by destruct (engineAnswer h request) as [[assessment|err]|]. }
  repeat apply conj; [done|done|..].
  - rewrite Hhandle. subst assessed.
    destruct (engineAnswer h request) as [[assessment|err]|]; [|done|done].
    destruct (IsRisky assessment) eqn:Hrisky; [|done].
    intros _. by exists assessment.
  - rewrite Hhandle. subst assessed.
    intros (assessment & -> & ->). done.
  - intros body Hbody. unfold ServeHTTP.
    change (negb (String.eqb "POST" "POST")) with false. cbv iota.
    rewrite Hbody. cbn [Review_Request]. by rewrite Hhandle.
Qed.

Lemma C10_missing_prior_object_is_no_bypass_witness :
  Request_Operation Fixture.deleteDb = "DELETE"
  ∧ Request_OldObjectRaw Fixture.deleteDb = None
  ∧ hasBypassLabel Fixture.unmarshalObject Fixture.deleteDb = false
  ∧ ServeHTTP Fixture.unmarshalObject Fixture.unmarshalReview Fixture.h0
      "POST" (Ok (String.list_byte_of_string "delete-db"))
    = HTTPReview
        {| UID := "uid-1";
           Allowed := false;
           Result := Some {| Status_Status := "Failure";
                             Status_Message :=
                               buildPVCBlockMessage
                                 (mkRiskyPVC "db" "prod" "pv-2"
                                    "PV has Delete reclaim policy, no snapshot found"
                                    None)
                                 +:+ buildPVCSuggestions "prod" "db" "pv-2";
                             Status_Reason := "Forbidden";
                             Status_Code := 403 |} |}.
Proof.
  split; [reflexivity|]. split; [reflexivity|].
  pose proof (C10_missing_prior_object_is_no_bypass
                Fixture.unmarshalObject Fixture.unmarshalReview Fixture.h0
                Fixture.deleteDb eq_refl (or_introl eq_refl))
    as (Hno & _ & _ & Hserve).
  split; [exact Hno|].
  rewrite (Hserve (String.list_byte_of_string "delete-db"));
    vm_compute; reflexivity.
Defined.

(* ------------------------------------------------------------------ *)
(** ** The specification's scenarios, evaluated *)

(** Scenario 3: PVC prod/db is Bound to a Delete PV and has the ready
    snapshot snap-1 of a Retain class; snap-0, ready but of a Delete class,
    comes first in the list and is passed over. *)
Example scenario_retain_snapshot :
  AssessPVCDeletion Fixture.rc1 "prod" "db"
  = Ok {| IsRisky := false; RiskyPVCs := [];
          Message := "Ready VolumeSnapshot 'snap-1' exists with Retain policy";
          Suggestion := "" |}.
Proof. vm_compute. reflexivity. Qed.

(** Scenario 4: the only snapshot of prod/db is ready but its class has
    deletion policy Delete. *)
Example scenario_delete_policy_snapshot :
  IsRisky <$>
    match
      AssessPVCDeletion
        {| client := client Fixture.rc0;
           snapshotChecker :=
             Some (Fixture.checker
                     [Fixture.snapshot "snap-0" "prod" "db" true
                        (Some "c-delete")]) |}
        "prod" "db"
    with
    | Ok assessment => Some assessment
    | Err _ => None
    end
  = Some true.
Proof. vm_compute. reflexivity. Qed.

(** Scenario 5: in namespace prod, web is on a Retain PV and db on a Delete
    PV without snapshot; the risky list names db only. *)
Example scenario_namespace_mixed :
  (λ assessment, (IsRisky assessment,
                  RiskyPVC_Name <$> RiskyPVCs assessment)) <$>
    match AssessNamespaceDeletion Fixture.rc0 "prod" with
    | Ok assessment => Some assessment
    | Err _ => None
    end
  = Some (true, ["db"]).
Proof. vm_compute. reflexivity. Qed.

(** A non-DELETE operation is allowed without consulting the calculator. *)
Example scenario_non_delete :
  handleAdmissionRequest Fixture.unmarshalObject Fixture.h0
    {| Request_UID := "uid-2";
       Request_Operation := "UPDATE";
       Request_Kind := "PersistentVolumeClaim";
       Request_Namespace := "prod";
       Request_Name := "db";
       Request_UserInfo := {| Username := "alice"; Groups := [] |};
       Request_OldObjectRaw := None |}
  = allowWith "uid-2" "Request allowed".
Proof. reflexivity. Qed.

(* ------------------------------------------------------------------ *)
(** ** Further properties of the admission handler *)

(** X1: every response echoes the UID of its request, whatever the
    operation, the kind, the labels and the calculator's answer. *)
Theorem handleAdmissionRequest_echoes_UID unmarshalObject h request :
  UID (handleAdmissionRequest unmarshalObject h request) = Request_UID request.
Proof.
  unfold handleAdmissionRequest, assessAndDecide.
  destruct (String.eqb (Request_Operation request) Delete); [|done].
  destruct (hasBypassLabel unmarshalObject request); [done|].
  rewrite decideByRisk_engineAnswer.
  destruct (engineAnswer h request) as [[assessment|err]|]; [|done|done].
  by destruct (IsRisky assessment).
Qed.

(** X2: a request is denied exactly when it is a DELETE without bypass
    label for which the calculator returns a risky assessment; the denial
    then carries status Failure, reason Forbidden, code 403 and the
    assessment's message followed by its suggestion. A non-DELETE
    operation, a bypassed request, a kind the handler does not know and a
    calculator error are never denied. *)
Theorem denied_iff_risky_assessment unmarshalObject h request :
  (Allowed (handleAdmissionRequest unmarshalObject h request) = false ↔
   Request_Operation request = "DELETE"
   ∧ hasBypassLabel unmarshalObject request = false
   ∧ ∃ assessment,
       engineAnswer h request = Some (Ok assessment)
       ∧ IsRisky assessment = true)
  ∧ (∀ assessment,
       Request_Operation request = "DELETE" →
       hasBypassLabel unmarshalObject request = false →
       engineAnswer h request = Some (Ok assessment) →
       IsRisky assessment = true →
       handleAdmissionRequest unmarshalObject h request
       = denyWith (Request_UID request)
                  (Message assessment +:+ Suggestion assessment)).
Proof.
  unfold handleAdmissionRequest, assessAndDecide, Delete. split.
  - destruct (String.eqb_spec (Request_Operation request) "DELETE")
      as [Hop|Hop]; [|split; [done|by intros [? _]]].
    destruct (hasBypassLabel unmarshalObject request);
      [split; [done|by intros (_ & ? & _)]|].
    rewrite decideByRisk_engineAnswer.
    destruct (engineAnswer h request) as [[assessment|err]|];
      [|split; [done|by intros (_ & _ & a & ? & _)]..].
    destruct (IsRisky assessment) eqn:Hrisky;
      [|split; [done|intros (_ & _ & a & [= <-] & ?); congruence]].
    split; [|done]. intros _. split; [done|]. split; [done|].
    by exists assessment.
  - intros assessment -> -> Hengine Hrisky. cbn.
    by rewrite decideByRisk_engineAnswer, Hengine, Hrisky.
Qed.





(** X5: [ServeHTTP] emits a verdict exactly for a POST whose body can be
    read, parses as an admission review and carries a request. A method
    other than POST is answered 405 whatever the body is; every other
    failure is answered 400; an error reply carries no verdict. *)
Theorem ServeHTTP_verdict_iff_well_formed
    unmarshalObject unmarshalReview h method body :
  (method ≠ "POST" →
   ServeHTTP unmarshalObject unmarshalReview h method body
   = HTTPError "Method not allowed" 405)
  ∧ ((∃ response,
        ServeHTTP unmarshalObject unmarshalReview h method body
        = HTTPReview response) ↔
     method = "POST"
     ∧ ∃ bytes review request,
         body = Ok bytes
         ∧ unmarshalReview bytes = Ok review
         ∧ Review_Request review = Some request)
  ∧ (∀ msg code,
       ServeHTTP unmarshalObject unmarshalReview h method body
       = HTTPError msg code →
       (code = 405%Z ∧ method ≠ "POST") ∨ (code = 400%Z ∧ method = "POST")).
Proof.
  unfold ServeHTTP.
  destruct (String.eqb_spec method "POST") as [->|Hm]; cbn [negb].
  - split; [done|].
    destruct body as [bytes|err].
    + destruct (unmarshalReview bytes) as [review|err] eqn:Hreview.
      * destruct (Review_Request review) as [request|] eqn:Hrequest.
        -- split; [|done]. split; [|by eexists].
           intros _. split; [done|]. by exists bytes, review, request.
        -- split; [|intros msg code [= <- <-]; by right].
           split; [by intros [? ?]|].
           intros (_ & b & r & q & [= <-] & Hr & Hq). congruence.
      * split; [|intros msg code [= <- <-]; by right].
        split; [by intros [? ?]|].
        intros (_ & b & r & q & [= <-] & Hr & Hq). congruence.
    + split; [|intros msg code [= <- <-]; by right].
      split; [by intros [? ?]|]. by intros (_ & b & r & q & ? & _).
  - split; [done|]. split.
    + split; [by intros [? ?]|]. by intros [? _].
    + intros msg code [= <- <-]. by left.
Qed.

(* ------------------------------------------------------------------ *)
(** ** Further properties of the risk calculator *)

(** The three answers of [isPVCRisky]. *)
Lemma isPVCRisky_cases rc namespace pvcName pv :
  (PV_ReclaimPolicy pv = "Retain"
   ∧ isPVCRisky rc namespace pvcName pv
     = (false, "PV has Retain reclaim policy", None))
  ∨ (PV_ReclaimPolicy pv ≠ "Retain"
     ∧ ∃ sc info,
         snapshotChecker rc = Some sc
         ∧ HasReadySnapshot sc namespace pvcName = (true, Some info, None)
         ∧ isPVCRisky rc namespace pvcName pv
           = (false,
              "Ready VolumeSnapshot '" +:+ SnapshotInfo_Name info
                +:+ "' exists with Retain policy",
              Some info))
  ∨ (PV_ReclaimPolicy pv ≠ "Retain"
     ∧ isPVCRisky rc namespace pvcName pv
       = (true,
          "PV has " +:+ PV_ReclaimPolicy pv
            +:+ " reclaim policy, no snapshot found",
          None)).
Proof.
  unfold isPVCRisky, PersistentVolumeReclaimRetain.
  destruct (String.eqb_spec (PV_ReclaimPolicy pv) "Retain") as [Hr|Hr];
    [by left|right].
  destruct (snapshotChecker rc) as [sc|]; [|by right].
  destruct (HasReadySnapshot sc namespace pvcName)
    as [[[] [info|]] [err|]] eqn:Hsnap;
    try (right; split; [done|reflexivity]).
  left. split; [done|]. by exists sc, info.
Qed.

(** X6: deleting a PV is decided by its reclaim policy alone. With the PV
    fetched and no bypass label, the request is allowed exactly when the
    policy is Retain, and the response is the same whatever snapshot
    checker the handler was built with: a snapshot of the bound claim does
    not make the deletion of a non-Retain PV safe. *)
Theorem pv_deletion_ignores_snapshots
    unmarshalObject kube checker checker' request pv :
  Request_Operation request = "DELETE" →
  Request_Kind request = "PersistentVolume" →
  hasBypassLabel unmarshalObject request = false →
  GetPV kube (Request_Name request) = Ok pv →
  handleAdmissionRequest unmarshalObject (NewHandler kube checker) request
  = handleAdmissionRequest unmarshalObject (NewHandler kube checker') request
  ∧ (Allowed (handleAdmissionRequest unmarshalObject
                (NewHandler kube checker) request) = true
     ↔ PV_ReclaimPolicy pv = "Retain").
Proof.
  intros Hop Hkind Hbypass Hpv.
  rewrite !(handleAdmissionRequest_delete _ _ _ Hop).
  rewrite !(assessAndDecide_no_bypass _ _ _ Hbypass).
  unfold decideByRisk. rewrite Hkind.
  change (String.eqb "PersistentVolume" "Namespace") with false.
  change (String.eqb "PersistentVolume" "PersistentVolumeClaim") with false.
  change (String.eqb "PersistentVolume" "PersistentVolume") with true.
  cbv iota. split; [done|].
  unfold AssessPVDeletion, NewHandler, NewRiskCalculator. cbn [Handler_RiskCalculator client].
  rewrite Hpv. unfold isPVRisky, PersistentVolumeReclaimRetain.
  destruct (String.eqb_spec (PV_ReclaimPolicy pv) "Retain") as [Hr|Hr];
    [done|].
  destruct (PV_ClaimRef pv);
    by destruct (String.eqb (PV_ReclaimPolicy pv)
                   PersistentVolumeReclaimDelete).
Qed.

(** X7: when the PVC is not Bound, [AssessPVCDeletion] answers not risky
    with the message "PVC ns/name is not bound to a PV" and looks up
    neither a PV nor a snapshot: calculators that agree on the PVC give the
    same answer, whatever their PVs and snapshot checkers are. *)
Theorem unbound_pvc_needs_no_pv_lookup rc rc' namespace name pvc :
  GetPVC (client rc) namespace name = Ok pvc →
  GetPVC (client rc') namespace name = Ok pvc →
  PVC_Phase pvc ≠ "Bound" →
  AssessPVCDeletion rc namespace name
  = Ok {| IsRisky := false; RiskyPVCs := [];
          Message := "PVC " +:+ namespace +:+ "/" +:+ name
                     +:+ " is not bound to a PV";
          Suggestion := "" |}
  ∧ AssessPVCDeletion rc' namespace name = AssessPVCDeletion rc namespace name.
Proof.
  intros Hpvc Hpvc' Hphase. unfold AssessPVCDeletion, ClaimBound.
  rewrite Hpvc, Hpvc'.
  by destruct (String.eqb_spec (PVC_Phase pvc) "Bound").
Qed.

(** X8: without snapshot support the PVC assessment falls back to the
    reclaim policy. When the calculator has no snapshot checker (as [main]
    builds it when the checker cannot be created), or when the snapshot
    list cannot be read, a Bound PVC is risky exactly when its PV is not
    Retain, that is, exactly when deleting the PV itself is risky. *)
Theorem pvc_assessment_without_snapshot_support rc namespace name pvc pv :
  snapshotChecker rc = None
  ∨ (∃ sc err, snapshotChecker rc = Some sc
               ∧ ListVolumeSnapshots (dynamicClient sc) namespace = Err err) →
  GetPVC (client rc) namespace name = Ok pvc →
  PVC_Phase pvc = "Bound" →
  GetPV (client rc) (PVC_VolumeName pvc) = Ok pv →
  ∃ assessment,
    AssessPVCDeletion rc namespace name = Ok assessment
    ∧ IsRisky assessment = isPVRisky pv
    ∧ (IsRisky assessment = true ↔ PV_ReclaimPolicy pv ≠ "Retain").
Proof.
  intros Hsnap Hpvc Hbound Hpv.
  rewrite (AssessPVCDeletion_bound _ _ _ _ _ Hpvc Hbound Hpv).
  assert (Hno : noReadyRetainSnapshot rc namespace name).
  { intros sc items Hsc Hlist.
    destruct Hsnap as [Hnone|(sc' & err & Hsc' & Herr)]; congruence. }
  unfold isPVRisky, PersistentVolumeReclaimRetain.
  destruct (String.eqb_spec (PV_ReclaimPolicy pv) "Retain") as [Hr|Hr].
  - rewrite (isPVCRisky_Retain _ _ _ _ Hr). eexists. by repeat split.
  - rewrite (isPVCRisky_no_snapshot _ _ _ _ Hr Hno). eexists.
    split; [done|]. split; [|done].
    by destruct (String.eqb (PV_ReclaimPolicy pv)
                   PersistentVolumeReclaimDelete).
Qed.

(** X9: the PVC assessment is never stricter than the PV assessment. If
    deleting a Bound PVC is assessed risky, so is deleting the PV it is
    bound to; a snapshot can only turn a risky PVC safe. *)
Theorem risky_pvc_has_risky_pv rc namespace name pvc assessment :
  GetPVC (client rc) namespace name = Ok pvc →
  AssessPVCDeletion rc namespace name = Ok assessment →
  IsRisky assessment = true →
  PVC_Phase pvc = "Bound"
  ∧ ∃ assessment',
      AssessPVDeletion rc (PVC_VolumeName pvc) = Ok assessment'
      ∧ IsRisky assessment' = true.
Proof.
  intros Hpvc Hassess Hrisky. unfold AssessPVCDeletion, ClaimBound in Hassess.
  rewrite Hpvc in Hassess.
  destruct (String.eqb_spec (PVC_Phase pvc) "Bound") as [Hbound|Hbound];
    cbn [negb] in Hassess; [|by injection Hassess as <-].
  split; [done|]. unfold AssessPVDeletion.
  destruct (GetPV (client rc) (PVC_VolumeName pvc)) as [pv|err]; [|done].
  destruct (isPVCRisky_cases rc namespace name pv)
    as [[_ H]|[(_ & sc & info & _ & _ & H)|[Hr H]]];
    rewrite H in Hassess; try (injection Hassess as <-; done).
  unfold isPVRisky, PersistentVolumeReclaimRetain.
  destruct (String.eqb_spec (PV_ReclaimPolicy pv) "Retain"); [done|].
  destruct (PV_ClaimRef pv);
    destruct (String.eqb (PV_ReclaimPolicy pv)
                PersistentVolumeReclaimDelete); by eexists.
Qed.

(** X10: what the three assessments report as errors. [AssessPVCDeletion]
    fails exactly when the PVC cannot be fetched or it is Bound and its PV
    cannot be fetched; [AssessPVDeletion] exactly when the PV cannot be
    fetched; [AssessNamespaceDeletion] exactly when the PVCs cannot be
    listed: a PV that cannot be fetched never fails a namespace
    assessment. *)
Theorem assessment_errors rc namespace name :
  ((∃ err, AssessPVCDeletion rc namespace name = Err err) ↔
   (∃ cause, GetPVC (client rc) namespace name = Err cause)
   ∨ ∃ pvc cause,
       GetPVC (client rc) namespace name = Ok pvc
       ∧ PVC_Phase pvc = "Bound"
       ∧ GetPV (client rc) (PVC_VolumeName pvc) = Err cause)
  ∧ ((∃ err, AssessPVDeletion rc name = Err err) ↔
     ∃ cause, GetPV (client rc) name = Err cause)
  ∧ ((∃ err, AssessNamespaceDeletion rc namespace = Err err) ↔
     ∃ cause, ListPVCs (client rc) namespace = Err cause).
Proof.
  repeat apply conj.
  - unfold AssessPVCDeletion, ClaimBound.
    destruct (GetPVC (client rc) namespace name) as [pvc|cause];
      [|intros _; left; by eexists].
    destruct (String.eqb_spec (PVC_Phase pvc) "Bound") as [Hb|Hb];
      cbn [negb]; [|by intros [? ?]].
    destruct (GetPV (client rc) (PVC_VolumeName pvc)) as [pv|cause] eqn:Hpv;
      [|intros _; right; by exists pvc, cause].
    destruct (isPVCRisky rc namespace name pv) as [[[] reason] [info|]];
      by intros [? ?].
  - unfold AssessPVCDeletion, ClaimBound.
    intros [[cause ->]|(pvc & cause & -> & -> & Hpv)]; [by eexists|].
    cbn [String.eqb negb].
    change (negb (String.eqb "Bound" "Bound")) with false. cbv iota.
    rewrite Hpv. by eexists.
  - unfold AssessPVDeletion.
    destruct (GetPV (client rc) name) as [pv|cause]; [|by eexists].
    destruct (isPVRisky pv); [|by intros [? ?]].
    destruct (PV_ClaimRef pv); by intros [? ?].
  - unfold AssessPVDeletion. intros [cause ->]. by eexists.
  - destruct (ListPVCs (client rc) namespace) as [pvcs|cause] eqn:Hlist;
      [|by eexists].
    rewrite (AssessNamespaceDeletion_listed _ _ _ Hlist). by intros [? ?].
  - unfold AssessNamespaceDeletion. intros [cause ->]. by eexists.
Qed.

(** When a listed PVC contributes a risky entry. *)
Lemma riskyEntry_Some rc pvc risky :
  riskyEntry rc pvc = Some risky ↔
  PVC_Phase pvc = "Bound"
  ∧ ∃ pv,
      GetPV (client rc) (PVC_VolumeName pvc) = Ok pv
      ∧ PV_ReclaimPolicy pv ≠ "Retain"
      ∧ (isPVCRisky rc (PVC_Namespace pvc) (PVC_Name pvc) pv).1.1 = true
      ∧ risky
        = mkRiskyPVC (PVC_Name pvc) (PVC_Namespace pvc) (PV_Name pv)
            ("PV has " +:+ PV_ReclaimPolicy pv
               +:+ " reclaim policy, no snapshot found")
            None.
Proof.
  unfold riskyEntry.
  destruct (String.eqb_spec (PVC_Phase pvc) "Bound") as [Hb|Hb];
    [|split; [done|by intros [? _]]].
  destruct (GetPV (client rc) (PVC_VolumeName pvc)) as [pv|err];
    [|split; [done|by intros (_ & ? & ? & _)]].
  destruct (isPVCRisky_cases rc (PVC_Namespace pvc) (PVC_Name pvc) pv)
    as [[_ Hc]|[(_ & sc & info & _ & _ & Hc)|[Hr Hc]]]; rewrite Hc.
  - split; [done|]. intros (_ & ? & [= <-] & _ & Hrisky & _).
    by rewrite Hc in Hrisky.
  - split; [done|]. intros (_ & ? & [= <-] & _ & Hrisky & _).
    by rewrite Hc in Hrisky.
  - split.
    + intros [= <-]. split; [done|]. exists pv. by rewrite Hc.
    + by intros (_ & ? & [= <-] & _ & _ & ->).
Qed.

(** X11: every record of a risky list, from any of the three assessments,
    has no snapshot attached (its [HasSnapshot] is false and its
    [SnapshotInfo] empty) and the reason "PV has <policy> reclaim policy,
    no snapshot found" for a policy other than Retain. *)
Theorem risky_records_have_no_snapshot rc namespace name assessment :
  AssessPVCDeletion rc namespace name = Ok assessment
  ∨ AssessNamespaceDeletion rc namespace = Ok assessment
  ∨ AssessPVDeletion rc name = Ok assessment →
  Forall (λ risky,
            RiskyPVC_HasSnapshot risky = false
            ∧ RiskyPVC_SnapshotInfo risky = ""
            ∧ ∃ policy,
                policy ≠ "Retain"
                ∧ RiskyPVC_Reason risky
                  = "PV has " +:+ policy
                      +:+ " reclaim policy, no snapshot found")
         (RiskyPVCs assessment).
Proof.
  intros [H|[H|H]].
  - unfold AssessPVCDeletion in H.
    destruct (GetPVC (client rc) namespace name) as [pvc|err]; [|done].
    destruct (negb _); [by injection H as <-|].
    destruct (GetPV (client rc) (PVC_VolumeName pvc)) as [pv|err]; [|done].
    destruct (isPVCRisky_cases rc namespace name pv)
      as [[_ Hc]|[(_ & sc & info & _ & _ & Hc)|[Hr Hc]]];
      rewrite Hc in H; injection H as <-; [done|done|].
    repeat constructor. by exists (PV_ReclaimPolicy pv).
  - destruct (ListPVCs (client rc) namespace) as [pvcs|err] eqn:Hlist;
      [|unfold AssessNamespaceDeletion in H; by rewrite Hlist in H].
    rewrite (AssessNamespaceDeletion_listed rc _ _ Hlist) in H.
    injection H as <-.
    destruct (namespaceVerdict_flag rc namespace pvcs) as [_ ->].
    apply Forall_forall. intros risky (pvc & Hin & Hentry)%list_elem_of_omap.
    apply riskyEntry_Some in Hentry as (_ & pv & _ & Hr & _ & ->).
    repeat split. by exists (PV_ReclaimPolicy pv).
  - unfold AssessPVDeletion, isPVRisky, PersistentVolumeReclaimRetain in H.
    destruct (GetPV (client rc) name) as [pv|err]; [|done].
    destruct (String.eqb_spec (PV_ReclaimPolicy pv) "Retain") as [Hr|Hr];
      [by injection H as <-|].
    assert (Hrec : ∀ ns n,
              Forall (λ risky,
                        RiskyPVC_HasSnapshot risky = false
                        ∧ RiskyPVC_SnapshotInfo risky = ""
                        ∧ ∃ policy,
                            policy ≠ "Retain"
                            ∧ RiskyPVC_Reason risky
                              = "PV has " +:+ policy
                                  +:+ " reclaim policy, no snapshot found")
                [ {| RiskyPVC_Name := n; RiskyPVC_Namespace := ns;
                     RiskyPVC_PVName := PV_Name pv;
                     RiskyPVC_Reason :=
                       "PV has " +:+ PV_ReclaimPolicy pv
                         +:+ " reclaim policy, no snapshot found";
                     RiskyPVC_HasSnapshot := false;
                     RiskyPVC_SnapshotInfo := "" |} ]).
    { intros ns n. repeat constructor. by exists (PV_ReclaimPolicy pv). }
    destruct (PV_ClaimRef pv);
      destruct (String.eqb (PV_ReclaimPolicy pv)
                  PersistentVolumeReclaimDelete);
      injection H as <-; apply Hrec.
Qed.

Lemma omap_fmap_sublist {A B C} (f : A → option B) (g : B → C) (k : A → C)
    (l : list A) :
  (∀ x y, f x = Some y → g y = k x) →
  (g <$> omap f l) `sublist_of` (k <$> l).
Proof.
  intros Hfg. induction l as [|x l IH]; [done|].
  cbn [omap list_omap fmap list_fmap].
  destruct (f x) as [y|] eqn:Hfx.
  - cbn. rewrite (Hfg x y Hfx). by apply sublist_skip.
  - by apply sublist_cons.
Qed.

(** X12: the risky list of a namespace assessment keeps the listing order:
    the (namespace, name) pairs of its records are a subsequence of those
    of the PVCs the list call returned, and every record stands for a
    listed PVC that is Bound. *)
Theorem namespace_risky_list_keeps_listing_order rc namespace pvcs assessment :
  ListPVCs (client rc) namespace = Ok pvcs →
  AssessNamespaceDeletion rc namespace = Ok assessment →
  ((λ risky, (RiskyPVC_Namespace risky, RiskyPVC_Name risky))
     <$> RiskyPVCs assessment)
    `sublist_of` ((λ pvc, (PVC_Namespace pvc, PVC_Name pvc)) <$> pvcs)
  ∧ (length (RiskyPVCs assessment)
     ≤ length (filter (λ pvc, PVC_Phase pvc = "Bound") pvcs))%nat.
Proof.
  intros Hlist H.
  rewrite (AssessNamespaceDeletion_listed rc _ _ Hlist) in H.
  injection H as <-.
  destruct (namespaceVerdict_flag rc namespace pvcs) as [_ ->]. split.
  - apply omap_fmap_sublist. intros pvc risky Hentry.
    by apply riskyEntry_Some in Hentry as (_ & pv & _ & _ & _ & ->).
  - clear Hlist. induction pvcs as [|pvc pvcs IH]; [done|].
    cbn [omap list_omap]. rewrite filter_cons.
    destruct (riskyEntry rc pvc) as [risky|] eqn:Hentry.
    + apply riskyEntry_Some in Hentry as [Hb _].
      rewrite decide_True by done. cbn. lia.
    + destruct (decide (PVC_Phase pvc = "Bound")); cbn; lia.
Qed.

(** X13: a namespace is assessed risky exactly when one of its listed PVCs
    is Bound to a PV that can be fetched and for which [isPVCRisky] answers
    risky. A namespace without any Bound PVC, the empty one included, is
    not risky. *)
Theorem namespace_risky_iff_some_bound_pvc_risky rc namespace pvcs :
  ListPVCs (client rc) namespace = Ok pvcs →
  ∃ assessment,
    AssessNamespaceDeletion rc namespace = Ok assessment
    ∧ (IsRisky assessment = true ↔
       ∃ pvc pv,
         pvc ∈ pvcs
         ∧ PVC_Phase pvc = "Bound"
         ∧ GetPV (client rc) (PVC_VolumeName pvc) = Ok pv
         ∧ (isPVCRisky rc (PVC_Namespace pvc) (PVC_Name pvc) pv).1.1 = true)
    ∧ ((∀ pvc, pvc ∈ pvcs → PVC_Phase pvc ≠ "Bound") →
       IsRisky assessment = false ∧ RiskyPVCs assessment = []).
Proof.
  intros Hlist. eexists. split; [by apply AssessNamespaceDeletion_listed|].
  destruct (namespaceVerdict_flag rc namespace pvcs) as [-> ->].
  rewrite nonEmpty_true. split; [split|].
  - intros Hne.
    destruct (omap (riskyEntry rc) pvcs) as [|risky l] eqn:Hl; [done|].
    assert (Hin : risky ∈ omap (riskyEntry rc) pvcs)
      by (rewrite Hl; by left).
    apply list_elem_of_omap in Hin as (pvc & Hin & Hentry).
    apply riskyEntry_Some in Hentry as (Hb & pv & Hpv & _ & Hrisky & _).
    by exists pvc, pv.
  - intros (pvc & pv & Hin & Hb & Hpv & Hrisky) Hnil.
    destruct (isPVCRisky_cases rc (PVC_Namespace pvc) (PVC_Name pvc) pv)
      as [[_ Hc]|[(_ & sc & info & _ & _ & Hc)|[Hr Hc]]];
      rewrite Hc in Hrisky; try done.
    assert (Hentry : riskyEntry rc pvc
                     = Some (mkRiskyPVC (PVC_Name pvc) (PVC_Namespace pvc)
                               (PV_Name pv)
                               ("PV has " +:+ PV_ReclaimPolicy pv
                                  +:+ " reclaim policy, no snapshot found")
                               None)).
    { apply riskyEntry_Some. split; [done|]. exists pv.
      by rewrite Hc. }
    assert (Hin' : mkRiskyPVC (PVC_Name pvc) (PVC_Namespace pvc)
                     (PV_Name pv)
                     ("PV has " +:+ PV_ReclaimPolicy pv
                        +:+ " reclaim policy, no snapshot found")
                     None ∈ omap (riskyEntry rc) pvcs).
    { apply list_elem_of_omap. by exists pvc. }
    rewrite Hnil in Hin'. by apply elem_of_nil in Hin'.
  - intros Hunbound.
    assert (Hnil : omap (riskyEntry rc) pvcs = []).
    { apply riskyEntry_all_skipped. intros p Hp Hb.
      by destruct (Hunbound p Hp). }
    by rewrite Hnil.
Qed.

(** X14: the namespace assessment is the PVC assessment run over the
    listing. When every listed PVC is the one a fetch by its namespace and
    name returns, the namespace's risky list is the concatenation, in
    listing order, of the risky lists [AssessPVCDeletion] gives for each
    listed PVC, a PVC whose assessment fails contributing nothing. *)
Theorem namespace_assessment_is_per_pvc_assessment rc namespace pvcs :
  ListPVCs (client rc) namespace = Ok pvcs →
  (∀ pvc, pvc ∈ pvcs →
          GetPVC (client rc) (PVC_Namespace pvc) (PVC_Name pvc) = Ok pvc) →
  ∃ assessment,
    AssessNamespaceDeletion rc namespace = Ok assessment
    ∧ RiskyPVCs assessment
      = pvcs ≫= λ pvc,
          match AssessPVCDeletion rc (PVC_Namespace pvc) (PVC_Name pvc) with
          | Ok a => RiskyPVCs a
          | Err _ => []
          end.
Proof.
  intros Hlist Hget. eexists.
  split; [by apply AssessNamespaceDeletion_listed|].
  destruct (namespaceVerdict_flag rc namespace pvcs) as [_ ->].
  clear Hlist. induction pvcs as [|pvc pvcs IH]; [done|].
  cbn [omap list_omap mbind list_bind].
  rewrite <- IH by (intros p Hp; apply Hget; by right).
  assert (Hone : match AssessPVCDeletion rc (PVC_Namespace pvc)
                         (PVC_Name pvc) with
                 | Ok a => RiskyPVCs a
                 | Err _ => []
                 end = option_list (riskyEntry rc pvc)).
  { unfold AssessPVCDeletion, riskyEntry, ClaimBound.
    rewrite (Hget pvc) by by left.
    destruct (String.eqb (PVC_Phase pvc) "Bound"); [|done]. cbn [negb].
    destruct (GetPV (client rc) (PVC_VolumeName pvc)) as [pv|err]; [|done].
    by destruct (isPVCRisky rc (PVC_Namespace pvc) (PVC_Name pvc) pv)
      as [[[] reason] [info|]]. }
  rewrite Hone. by destruct (riskyEntry rc pvc).
Qed.

Section Messages.

Lemma Contains_refl s : strings_Contains s s = true.
Proof.
  assert (H : ∀ t, String.prefix t t = true).
  { induction t as [|a t IH]; [done|]. cbn.
    by destruct (Ascii.ascii_dec a a). }
  destruct s; unfold strings_Contains; fold strings_Contains;
    by rewrite H.
Qed.

(** A string contains what stands between a prefix and a suffix of it. *)
Lemma Contains_between pre sub post s :
  s = pre +:+ sub +:+ post → strings_Contains s sub = true.
Proof. intros ->. apply Contains_app_r, Contains_app_l, Contains_refl. Qed.

Lemma append_assoc (s t u : string) : (s +:+ t) +:+ u = s +:+ t +:+ u.
Proof.
  induction s as [|a s IH]; [done|]. rewrite !append_cons. by rewrite IH.
Qed.

Lemma append_empty_r (s : string) : s +:+ "" = s.
Proof. induction s as [|a s IH]; [done|]. rewrite append_cons. by rewrite IH. Qed.

Lemma concat_empty_cons (x : string) (xs : list string) :
  String.concat "" (x :: xs) = x +:+ String.concat "" xs.
Proof. destruct xs; cbn; [by rewrite append_empty_r|done]. Qed.

(** A piece that is appended somewhere inside occurs in the whole. *)
Lemma Contains_concat {A} (f : A → string) (l : list A) (x : A) :
  x ∈ l → strings_Contains (String.concat "" (f <$> l)) (f x) = true.
Proof.
  induction 1 as [x l|x y l _ IH]; rewrite fmap_cons, concat_empty_cons.
  - apply Contains_app_l, Contains_refl.
  - by apply Contains_app_r.
Qed.

Lemma concat_empty_app (l1 l2 : list string) :
  String.concat "" (l1 ++ l2) = String.concat "" l1 +:+ String.concat "" l2.
Proof.
  induction l1 as [|x l1 IH]; [done|].
  rewrite <- app_comm_cons, !concat_empty_cons, IH.
  by rewrite append_assoc.
Qed.

End Messages.

(** Proves [strings_Contains s sub = true] from the text before and the
    text after the occurrence of [sub] in [s]. *)
Ltac between pre post :=
  apply (Contains_between pre _ post); rewrite ?append_assoc; reflexivity.

(** X15: the texts of a namespace denial name what was observed. The block
    message states the number of risky PVCs and has the line
    "  - <name>: <reason>" for each of them; the suggestion has a
    [kubectl patch pv] line for the PV of each of them and the two
    force-delete commands for the namespace. *)
Theorem namespace_denial_texts namespace (riskyPVCs : list RiskyPVC) risky :
  risky ∈ riskyPVCs →
  strings_Contains (buildNamespaceBlockMessage namespace riskyPVCs)
    ("  - " +:+ RiskyPVC_Name risky +:+ ": " +:+ RiskyPVC_Reason risky +:+ LF)
  = true
  ∧ strings_Contains (buildNamespaceBlockMessage namespace riskyPVCs)
      ("contains " +:+ fmt_d (length riskyPVCs) +:+ " PVC(s)") = true
  ∧ strings_Contains (buildSuggestions namespace riskyPVCs)
      ("kubectl patch pv " +:+ RiskyPVC_PVName risky +:+ " -p ") = true
  ∧ strings_Contains (buildSuggestions namespace riskyPVCs)
      ("kubectl label namespace " +:+ namespace
         +:+ " pv-safe.io/force-delete=true") = true
  ∧ strings_Contains (buildSuggestions namespace riskyPVCs)
      ("kubectl delete namespace " +:+ namespace +:+ LF) = true.
Proof.
  intros Hin. unfold buildNamespaceBlockMessage, buildSuggestions.
  repeat apply conj.
  - do 7 apply Contains_app_r.
    apply (Contains_concat
             (λ r, "  - " +:+ RiskyPVC_Name r +:+ ": "
                   +:+ RiskyPVC_Reason r +:+ LF)), Hin.
  - between ("DELETION BLOCKED: Namespace '" +:+ namespace +:+ "' ")
            (" that would lose data permanently" +:+ LF +:+ LF
               +:+ "Risky PVCs:" +:+ LF
               +:+ String.concat ""
                     (map (λ r, "  - " +:+ RiskyPVC_Name r +:+ ": "
                                +:+ RiskyPVC_Reason r +:+ LF) riskyPVCs)).
  - apply list_elem_of_split in Hin as (l1 & l2 & ->).
    rewrite map_app, map_cons, concat_empty_app, concat_empty_cons.
    unfold patchLine at 2.
    between (LF +:+ "To safely delete this resource:" +:+ LF
               +:+ "  1. Create VolumeSnapshots for the PVCs" +:+ LF
               +:+ "  2. OR change PV reclaim policy to Retain:" +:+ LF
               +:+ String.concat ""
                     (map (λ r, patchLine (RiskyPVC_PVName r)) l1)
               +:+ "     ")
            ("'{" +:+ DQ +:+ "spec" +:+ DQ +:+ ":{" +:+ DQ
               +:+ "persistentVolumeReclaimPolicy" +:+ DQ +:+ ":" +:+ DQ
               +:+ "Retain" +:+ DQ +:+ "}}'" +:+ LF
               +:+ String.concat ""
                     (map (λ r, patchLine (RiskyPVC_PVName r)) l2)
               +:+ LF +:+ "  3. OR force delete (will lose data):" +:+ LF
               +:+ "     kubectl label namespace " +:+ namespace
               +:+ " pv-safe.io/force-delete=true" +:+ LF
               +:+ "     kubectl delete namespace " +:+ namespace +:+ LF
               +:+ LF +:+ "  4. Then retry the deletion" +:+ LF).
  - between (LF +:+ "To safely delete this resource:" +:+ LF
               +:+ "  1. Create VolumeSnapshots for the PVCs" +:+ LF
               +:+ "  2. OR change PV reclaim policy to Retain:" +:+ LF
               +:+ String.concat ""
                     (map (λ r, patchLine (RiskyPVC_PVName r)) riskyPVCs)
               +:+ LF +:+ "  3. OR force delete (will lose data):" +:+ LF
               +:+ "     ")
            (LF +:+ "     kubectl delete namespace " +:+ namespace +:+ LF
               +:+ LF +:+ "  4. Then retry the deletion" +:+ LF).
  - between (LF +:+ "To safely delete this resource:" +:+ LF
               +:+ "  1. Create VolumeSnapshots for the PVCs" +:+ LF
               +:+ "  2. OR change PV reclaim policy to Retain:" +:+ LF
               +:+ String.concat ""
                     (map (λ r, patchLine (RiskyPVC_PVName r)) riskyPVCs)
               +:+ LF +:+ "  3. OR force delete (will lose data):" +:+ LF
               +:+ "     kubectl label namespace " +:+ namespace
               +:+ " pv-safe.io/force-delete=true" +:+ LF
               +:+ "     ")
            (LF +:+ "  4. Then retry the deletion" +:+ LF).
Qed.

(** X16: the texts of a PVC denial name what was observed. When
    [AssessPVCDeletion] answers risky, its message followed by its
    suggestion names the PVC as namespace/name, gives the reason, and
    offers the [kubectl patch pv] command for the PV the PVC is bound to
    and the two force-delete commands for the PVC. *)
Theorem pvc_denial_texts rc namespace name pvc pv assessment :
  GetPVC (client rc) namespace name = Ok pvc →
  GetPV (client rc) (PVC_VolumeName pvc) = Ok pv →
  AssessPVCDeletion rc namespace name = Ok assessment →
  IsRisky assessment = true →
  let text := Message assessment +:+ Suggestion assessment in
  strings_Contains text ("PVC '" +:+ namespace +:+ "/" +:+ name +:+ "'") = true
  ∧ strings_Contains text
      ("Reason: PV has " +:+ PV_ReclaimPolicy pv
         +:+ " reclaim policy, no snapshot found") = true
  ∧ strings_Contains text ("kubectl patch pv " +:+ PV_Name pv +:+ " -p ")
    = true
  ∧ strings_Contains text
      ("kubectl label pvc " +:+ name +:+ " -n " +:+ namespace
         +:+ " pv-safe.io/force-delete=true") = true
  ∧ strings_Contains text
      ("kubectl delete pvc " +:+ name +:+ " -n " +:+ namespace +:+ LF) = true.
Proof.
  intros Hpvc Hpv Hassess Hrisky text. subst text.
  unfold AssessPVCDeletion in Hassess. rewrite Hpvc in Hassess.
  destruct (negb _); [injection Hassess as <-; done|].
  rewrite Hpv in Hassess.
  destruct (isPVCRisky_cases rc namespace name pv)
    as [[_ Hc]|[(_ & sc & info & _ & _ & Hc)|[Hr Hc]]];
    rewrite Hc in Hassess; injection Hassess as <-; try done.
  cbn [Message Suggestion].
  unfold buildPVCBlockMessage, buildPVCSuggestions, mkRiskyPVC, patchLine.
  cbn [RiskyPVC_Namespace RiskyPVC_Name RiskyPVC_Reason].
  set (tail := LF +:+ "  3. OR force delete (will lose data):" +:+ LF
               +:+ "     kubectl label pvc " +:+ name +:+ " -n "
               +:+ namespace +:+ " pv-safe.io/force-delete=true" +:+ LF
               +:+ "     kubectl delete pvc " +:+ name +:+ " -n "
               +:+ namespace +:+ LF
               +:+ LF +:+ "  4. Then retry the deletion" +:+ LF).
  set (patch := "'{" +:+ DQ +:+ "spec" +:+ DQ +:+ ":{" +:+ DQ
                +:+ "persistentVolumeReclaimPolicy" +:+ DQ +:+ ":" +:+ DQ
                +:+ "Retain" +:+ DQ +:+ "}}'" +:+ LF).
  set (head := "DELETION BLOCKED: PVC '" +:+ namespace +:+ "/" +:+ name
               +:+ "' would lose data permanently" +:+ LF +:+ LF
               +:+ "Reason: " +:+ "PV has " +:+ PV_ReclaimPolicy pv
               +:+ " reclaim policy, no snapshot found" +:+ LF).
  set (steps := LF +:+ "To safely delete this PVC:" +:+ LF
                +:+ "  1. Create a VolumeSnapshot of the data" +:+ LF
                +:+ "  2. OR change PV reclaim policy to Retain:" +:+ LF).
  repeat apply conj.
  - apply Contains_app_l. subst head.
    between "DELETION BLOCKED: "
            (" would lose data permanently" +:+ LF +:+ LF
               +:+ "Reason: " +:+ "PV has " +:+ PV_ReclaimPolicy pv
               +:+ " reclaim policy, no snapshot found" +:+ LF).
  - apply Contains_app_l. subst head.
    between ("DELETION BLOCKED: PVC '" +:+ namespace +:+ "/" +:+ name
               +:+ "' would lose data permanently" +:+ LF +:+ LF)
            LF.
  - apply Contains_app_r.
    between (steps +:+ "     ") (patch +:+ tail).
  - apply Contains_app_r. subst tail.
    between (steps +:+ "     kubectl patch pv " +:+ PV_Name pv +:+ " -p "
               +:+ patch +:+ LF
               +:+ "  3. OR force delete (will lose data):" +:+ LF
               +:+ "     ")
            (LF +:+ "     kubectl delete pvc " +:+ name +:+ " -n "
               +:+ namespace +:+ LF
               +:+ LF +:+ "  4. Then retry the deletion" +:+ LF).
  - apply Contains_app_r. subst tail.
    between (steps +:+ "     kubectl patch pv " +:+ PV_Name pv +:+ " -p "
               +:+ patch +:+ LF
               +:+ "  3. OR force delete (will lose data):" +:+ LF
               +:+ "     kubectl label pvc " +:+ name +:+ " -n "
               +:+ namespace +:+ " pv-safe.io/force-delete=true" +:+ LF
               +:+ "     ")
            (LF +:+ "  4. Then retry the deletion" +:+ LF).
Qed.

Lemma snapshotInfoOf_Name item sourcePVC deletionPolicy :
  SnapshotInfo_Name (snapshotInfoOf item sourcePVC deletionPolicy)
  = GetName item.
Proof.
  unfold snapshotInfoOf.
  by destruct (NestedString item ["status"; "restoreSize"]) as [[? ?] ?].
Qed.

(** X17: a ready snapshot of a Retain class makes the deletion of a Bound
    PVC on a non-Retain PV safe. The assessment is not risky, with an empty
    risky list, and its message names the first accepted snapshot of the
    list; a DELETE request for the PVC is allowed. *)
Theorem pvc_with_retained_snapshot_is_safe
    unmarshalObject h request pvc pv sc pre item post :
  Request_Operation request = "DELETE" →
  Request_Kind request = "PersistentVolumeClaim" →
  GetPVC (client (Handler_RiskCalculator h))
         (Request_Namespace request) (Request_Name request) = Ok pvc →
  PVC_Phase pvc = "Bound" →
  GetPV (client (Handler_RiskCalculator h)) (PVC_VolumeName pvc) = Ok pv →
  snapshotChecker (Handler_RiskCalculator h) = Some sc →
  ListVolumeSnapshots (dynamicClient sc) (Request_Namespace request)
  = Ok (pre ++ item :: post) →
  Forall (λ s, ¬ accepted sc (Request_Name request) s) pre →
  accepted sc (Request_Name request) item →
  PV_ReclaimPolicy pv ≠ "Retain" →
  AssessPVCDeletion (Handler_RiskCalculator h)
    (Request_Namespace request) (Request_Name request)
  = Ok {| IsRisky := false; RiskyPVCs := [];
          Message := "Ready VolumeSnapshot '" +:+ GetName item
                     +:+ "' exists with Retain policy";
          Suggestion := "" |}
  ∧ Allowed (handleAdmissionRequest unmarshalObject h request) = true.
Proof.
  intros Hop Hkind Hpvc Hbound Hpv Hsc Hlist Hpre Hitem Hpol.
  assert (Hassess :
            AssessPVCDeletion (Handler_RiskCalculator h)
              (Request_Namespace request) (Request_Name request)
            = Ok {| IsRisky := false; RiskyPVCs := [];
                    Message := "Ready VolumeSnapshot '" +:+ GetName item
                               +:+ "' exists with Retain policy";
                    Suggestion := "" |}).
  { rewrite (AssessPVCDeletion_bound _ _ _ _ _ Hpvc Hbound Hpv).
    unfold isPVCRisky, PersistentVolumeReclaimRetain.
    destruct (String.eqb_spec (PV_ReclaimPolicy pv) "Retain"); [done|].
    rewrite Hsc. unfold HasReadySnapshot. rewrite Hlist.
    rewrite (hasReadySnapshotLoop_first sc _ pre item post Hpre Hitem).
    by rewrite snapshotInfoOf_Name. }
  split; [done|].
  rewrite (handleAdmissionRequest_delete _ _ _ Hop). unfold assessAndDecide.
  destruct (hasBypassLabel unmarshalObject request); [done|].
  by rewrite decideByRisk_engineAnswer, (engineAnswer_PVC _ _ Hkind), Hassess.
Qed.

(* ------------------------------------------------------------------ *)
(** ** Further properties of the snapshot checker *)

Section ListSnapshots.

Context (sc : SnapshotChecker) (pvcName : string).

Lemma listedSnapshotInfo_fields item sourcePVC ready deletionPolicy :
  SnapshotInfo_Name (listedSnapshotInfo item sourcePVC ready deletionPolicy)
  = GetName item
  ∧ SnapshotInfo_SourcePVC
      (listedSnapshotInfo item sourcePVC ready deletionPolicy) = sourcePVC
  ∧ SnapshotInfo_IsReady
      (listedSnapshotInfo item sourcePVC ready deletionPolicy) = ready
  ∧ SnapshotInfo_DeletionPolicy
      (listedSnapshotInfo item sourcePVC ready deletionPolicy)
    = deletionPolicy.
Proof.
  unfold listedSnapshotInfo.
  by destruct (NestedString item ["status"; "restoreSize"]) as [[? ?] ?].
Qed.

(** One turn of the loop of [ListSnapshots]. *)
Lemma listSnapshotsLoop_cons item rest result :
  listSnapshotsLoop sc pvcName (item :: rest) result =
    listSnapshotsLoop sc pvcName rest
      (result ++ option_list (listedEntry sc pvcName item)).
Proof.
  cbn [listSnapshotsLoop]. rewrite snapshotDeletionPolicy_resolved.
  pose proof (NestedString_fieldAt item
                ["spec"; "source"; "persistentVolumeClaimName"]) as Hsrc.
  pose proof (NestedBool_fieldAt item ["status"; "readyToUse"]) as Hrdy.
  unfold listedEntry, sourcePVCName, readyFlag.
  assert (Hready : (NestedBool item ["status"; "readyToUse"]).1.1
                   = match fieldAt (VMap item) ["status"; "readyToUse"] with
                     | Some (VBool b) => b
                     | _ => false
                     end).
  { destruct (fieldAt (VMap item) ["status"; "readyToUse"])
      as [[|b| | | |]|]; try (by accessor_failed Hrdy).
    by rewrite Hrdy. }
  destruct (NestedBool item ["status"; "readyToUse"]) as [[ready ?] ?].
  cbn in Hready. subst ready.
  destruct (fieldAt (VMap item)
              ["spec"; "source"; "persistentVolumeClaimName"])
    as [[| | |src| |]|];
    try (accessor_failed Hsrc; cbn; by rewrite app_nil_r).
  rewrite Hsrc. cbn.
  destruct (String.eqb_spec src pvcName) as [->|Hne]; cbn.
  - by rewrite decide_True.
  - rewrite decide_False by congruence. cbn. by rewrite app_nil_r.
Qed.

Lemma listSnapshotsLoop_spec items : ∀ result,
  listSnapshotsLoop sc pvcName items result
  = result ++ omap (listedEntry sc pvcName) items.
Proof.
  induction items as [|item items IH]; intros result.
  - cbn. by rewrite app_nil_r.
  - rewrite listSnapshotsLoop_cons, IH. cbn [omap list_omap].
    destruct (listedEntry sc pvcName item); cbn; [|by rewrite app_nil_r].
    by rewrite <- app_assoc.
Qed.

End ListSnapshots.

(** X18: [ListSnapshots] describes every listed snapshot whose source is
    the PVC, ready or not, in list order, and no other: the names and the
    ready flags it returns are those of the snapshots of the PVC, and every
    description carries the PVC's name as source. *)
Theorem ListSnapshots_describes_the_snapshots_of_the_pvc
    sc namespace pvcName items :
  ListVolumeSnapshots (dynamicClient sc) namespace = Ok items →
  ∃ infos,
    ListSnapshots sc namespace pvcName = Ok infos
    ∧ SnapshotInfo_Name <$> infos
      = GetName <$> filter (λ s, sourcePVCName s = Some pvcName) items
    ∧ SnapshotInfo_IsReady <$> infos
      = readyFlag <$> filter (λ s, sourcePVCName s = Some pvcName) items
    ∧ Forall (λ info, SnapshotInfo_SourcePVC info = pvcName) infos.
Proof.
  intros Hlist. unfold ListSnapshots. rewrite Hlist. eexists.
  split; [done|]. rewrite listSnapshotsLoop_spec. cbn [app].
  clear Hlist. induction items as [|item items (IHn & IHr & IHs)];
    [by repeat constructor|].
  cbn [omap list_omap]. rewrite filter_cons.
  assert (Hentry : listedEntry sc pvcName item
                   = if decide (sourcePVCName item = Some pvcName)
                     then Some (listedSnapshotInfo item pvcName
                                  (readyFlag item) (resolvedPolicy sc item))
                     else None) by done.
  destruct (decide (sourcePVCName item = Some pvcName)); rewrite Hentry;
    [|done].
  destruct (listedSnapshotInfo_fields item pvcName (readyFlag item)
              (resolvedPolicy sc item)) as (Hn & Hs & Hr & _).
  cbn [option_list fmap list_fmap]. repeat apply conj.
  - by rewrite Hn, <- IHn.
  - by rewrite Hr, <- IHr.
  - by constructor.
Qed.

(** X19: [HasReadySnapshot] answers with the first description in the
    result of [ListSnapshots] that is ready and has deletion policy Retain,
    and answers not-found when [ListSnapshots] returns none. *)
Theorem HasReadySnapshot_agrees_with_ListSnapshots
    sc namespace pvcName items :
  ListVolumeSnapshots (dynamicClient sc) namespace = Ok items →
  ∃ infos,
    ListSnapshots sc namespace pvcName = Ok infos
    ∧ HasReadySnapshot sc namespace pvcName
      = match List.find
                (λ info, SnapshotInfo_IsReady info
                         && String.eqb (SnapshotInfo_DeletionPolicy info)
                                       "Retain") infos with
        | Some info => (true, Some info, None)
        | None => (false, None, None)
        end.
Proof.
  intros Hlist. unfold ListSnapshots, HasReadySnapshot. rewrite Hlist.
  eexists. split; [done|]. rewrite listSnapshotsLoop_spec. cbn [app].
  clear Hlist. induction items as [|item items IH]; [done|].
  rewrite hasReadySnapshotLoop_cons. cbn [omap list_omap].
  assert (Hentry : listedEntry sc pvcName item
                   = if decide (sourcePVCName item = Some pvcName)
                     then Some (listedSnapshotInfo item pvcName
                                  (readyFlag item) (resolvedPolicy sc item))
                     else None) by done.
  rewrite Hentry.
  destruct (decide (accepted sc pvcName item)) as [(Hs & Hr & Hp)|Hn].
  - rewrite decide_True by done. rewrite Hr, Hp. cbn [option_list app find].
    destruct (listedSnapshotInfo_fields item pvcName true "Retain")
      as (_ & _ & -> & ->).
    reflexivity.
  - destruct (decide (sourcePVCName item = Some pvcName)) as [Hs|Hs];
      [|done].
    cbn [option_list app find].
    destruct (listedSnapshotInfo_fields item pvcName (readyFlag item)
                (resolvedPolicy sc item)) as (_ & _ & -> & ->).
    destruct (readyFlag item) eqn:Hr; [|done].
    destruct (String.eqb_spec (resolvedPolicy sc item) "Retain") as [Hp|Hp];
      [|done].
    by destruct Hn.
Qed.

(* ------------------------------------------------------------------ *)
(** ** Properties of the log *)

Section Log.

Context (unmarshalObject : list byte → result object) (h : Handler).

(** The records of the log of a request that start with [tag], for a tag
    that is a closed string: splits the log into its parts and evaluates
    the test on each record. *)
Ltac tagged_records request :=
  unfold handleAdmissionRequestLog, assessAndDecideLog, hasBypassLabelLog,
    logDeletion, handleAdmissionRequest, assessAndDecide, decideByRisk,
    engineAnswer, Delete;
  cbv beta zeta;
  destruct (String.eqb (Request_Operation request) "DELETE");
    [|reflexivity];
  rewrite !existsb_app;
  repeat match goal with
         | |- context [hasBypassLabel ?u request] =>
             destruct (hasBypassLabel u request)
         | |- context [String.eqb (Request_Kind request) ?k] =>
             destruct (String.eqb (Request_Kind request) k)
         | |- context [unmarshalObject ?raw] =>
             destruct (unmarshalObject raw)
         | |- context [Request_OldObjectRaw request] =>
             destruct (Request_OldObjectRaw request)
         | |- context [AssessNamespaceDeletion ?rc ?n] =>
             destruct (AssessNamespaceDeletion rc n)
         | |- context [AssessPVCDeletion ?rc ?ns ?n] =>
             destruct (AssessPVCDeletion rc ns n)
         | |- context [AssessPVDeletion ?rc ?n] =>
             destruct (AssessPVDeletion rc n)
         | |- context [IsRisky ?a] => is_var a; destruct (IsRisky a)
         | |- context [String.eqb (Message ?a) ""] =>
             is_var a; destruct (String.eqb (Message a) "")
         end;
  reflexivity.

(** X20: bypasses are audited. The log of a request has a record starting
    with "BYPASS:" exactly when the request is a DELETE that carries the
    bypass label, and that log names the resource and the user who asked;
    besides, the log of every request has the record "  User: <username>". *)
Theorem bypass_is_audited request :
  existsb (String.prefix "BYPASS:")
    (handleAdmissionRequestLog unmarshalObject h request)
  = String.eqb (Request_Operation request) "DELETE"
    && hasBypassLabel unmarshalObject request
  ∧ (Request_Operation request = "DELETE" →
     hasBypassLabel unmarshalObject request = true →
     ("BYPASS: Force delete label found on " +:+ Request_Kind request
        +:+ " " +:+ Request_Namespace request +:+ "/"
        +:+ Request_Name request)
       ∈ handleAdmissionRequestLog unmarshalObject h request)
  ∧ ("  User: " +:+ Username (Request_UserInfo request))
      ∈ handleAdmissionRequestLog unmarshalObject h request.
Proof.
  repeat apply conj.
  - tagged_records request.
  - intros Hop Hbypass. unfold handleAdmissionRequestLog, Delete.
    rewrite Hop. change (String.eqb "DELETE" "DELETE") with true. cbv iota.
    apply elem_of_app. right. apply elem_of_app. right.
    unfold assessAndDecideLog. rewrite Hbypass.
    apply elem_of_app. right. by left.
  - unfold handleAdmissionRequestLog. apply elem_of_app. left.
    do 7 right. by left.
Qed.

(** X21: denials and calculator failures are audited. The log of a
    request has a record starting with "BLOCKING:" exactly when the
    response denies the request, and a record starting with "ERROR:"
    exactly when the request is a DELETE without bypass label on which the
    calculator failed. *)
Theorem denial_is_audited request :
  existsb (String.prefix "BLOCKING:")
    (handleAdmissionRequestLog unmarshalObject h request)
  = negb (Allowed (handleAdmissionRequest unmarshalObject h request))
  ∧ existsb (String.prefix "ERROR:")
      (handleAdmissionRequestLog unmarshalObject h request)
    = String.eqb (Request_Operation request) "DELETE"
      && negb (hasBypassLabel unmarshalObject request)
      && match engineAnswer h request with
         | Some (Err _) => true
         | _ => false
         end.
Proof.
  split; tagged_records request.
Qed.

End Log.

(* ------------------------------------------------------------------ *)
(** ** Instances of the further properties *)

Lemma pv_deletion_ignores_snapshots_witness :
  GetPV Scenario.kube "pv-2" = Ok Fixture.pv2
  ∧ handleAdmissionRequest Fixture.unmarshalObject
      (NewHandler Scenario.kube (Some (Fixture.checker Fixture.snaps)))
      Scenario.deletePv2
    = handleAdmissionRequest Fixture.unmarshalObject
        (NewHandler Scenario.kube None) Scenario.deletePv2
  ∧ (Allowed (handleAdmissionRequest Fixture.unmarshalObject
                (NewHandler Scenario.kube
                   (Some (Fixture.checker Fixture.snaps)))
                Scenario.deletePv2) = true
     ↔ PV_ReclaimPolicy Fixture.pv2 = "Retain").
Proof.
  split; [vm_compute; reflexivity|].
  apply (pv_deletion_ignores_snapshots Fixture.unmarshalObject Scenario.kube
           (Some (Fixture.checker Fixture.snaps)) None Scenario.deletePv2
           Fixture.pv2); vm_compute; reflexivity.
Defined.

Lemma unbound_pvc_needs_no_pv_lookup_witness :
  GetPVC (client Scenario.withSnapshots) "prod" "cache" = Ok Scenario.cache
  ∧ PVC_Phase Scenario.cache ≠ "Bound"
  ∧ AssessPVCDeletion Scenario.withSnapshots "prod" "cache"
    = Ok {| IsRisky := false; RiskyPVCs := [];
            Message := "PVC " +:+ "prod" +:+ "/" +:+ "cache"
                       +:+ " is not bound to a PV";
            Suggestion := "" |}
  ∧ AssessPVCDeletion Scenario.withoutChecker "prod" "cache"
    = AssessPVCDeletion Scenario.withSnapshots "prod" "cache".
Proof.
  split; [vm_compute; reflexivity|]. split; [discriminate|].
  apply (unbound_pvc_needs_no_pv_lookup Scenario.withSnapshots
           Scenario.withoutChecker "prod" "cache" Scenario.cache);
    [vm_compute; reflexivity..|discriminate].
Defined.

Lemma pvc_assessment_without_snapshot_support_witness :
  snapshotChecker Scenario.withoutChecker = None
  ∧ (∃ assessment,
       AssessPVCDeletion Scenario.withoutChecker "prod" "db" = Ok assessment
       ∧ IsRisky assessment = isPVRisky Fixture.pv2
       ∧ (IsRisky assessment = true
          ↔ PV_ReclaimPolicy Fixture.pv2 ≠ "Retain"))
  ∧ ListVolumeSnapshots (dynamicClient Scenario.noSnapshotAPI) "prod"
    = Err "the server could not find the requested resource"
  ∧ ∃ assessment,
      AssessPVCDeletion Scenario.withFailingAPI "prod" "db" = Ok assessment
      ∧ IsRisky assessment = isPVRisky Fixture.pv2
      ∧ (IsRisky assessment = true ↔ PV_ReclaimPolicy Fixture.pv2 ≠ "Retain").
Proof.
  split; [reflexivity|]. split; [|split; [reflexivity|]].
  - apply (pvc_assessment_without_snapshot_support Scenario.withoutChecker
             "prod" "db" Fixture.db Fixture.pv2);
      [left; reflexivity|vm_compute; reflexivity..].
  - apply (pvc_assessment_without_snapshot_support Scenario.withFailingAPI
             "prod" "db" Fixture.db Fixture.pv2);
      [right; by eexists _, _|vm_compute; reflexivity..].
Defined.

Lemma risky_pvc_has_risky_pv_witness :
  AssessPVCDeletion Fixture.rc0 "prod" "db"
  = Ok {| IsRisky := true; RiskyPVCs := [Scenario.riskyDb];
          Message := buildPVCBlockMessage Scenario.riskyDb;
          Suggestion := buildPVCSuggestions "prod" "db" "pv-2" |}
  ∧ PVC_Phase Fixture.db = "Bound"
  ∧ ∃ assessment',
      AssessPVDeletion Fixture.rc0 (PVC_VolumeName Fixture.db) = Ok assessment'
      ∧ IsRisky assessment' = true.
Proof.
  split; [vm_compute; reflexivity|].
  apply (risky_pvc_has_risky_pv Fixture.rc0 "prod" "db" Fixture.db
           {| IsRisky := true; RiskyPVCs := [Scenario.riskyDb];
              Message := buildPVCBlockMessage Scenario.riskyDb;
              Suggestion := buildPVCSuggestions "prod" "db" "pv-2" |});
    vm_compute; reflexivity.
Defined.

Lemma risky_records_have_no_snapshot_witness :
  AssessNamespaceDeletion Fixture.rc1 "lab"
  = Ok {| IsRisky := false; RiskyPVCs := []; Message := ""; Suggestion := "" |}
  ∧ AssessNamespaceDeletion Fixture.rc0 "prod"
    = Ok (namespaceVerdict Fixture.rc0 "prod" [Fixture.web; Fixture.db])
  ∧ Forall (λ risky,
              RiskyPVC_HasSnapshot risky = false
              ∧ RiskyPVC_SnapshotInfo risky = ""
              ∧ ∃ policy,
                  policy ≠ "Retain"
                  ∧ RiskyPVC_Reason risky
                    = "PV has " +:+ policy
                        +:+ " reclaim policy, no snapshot found")
      (RiskyPVCs (namespaceVerdict Fixture.rc0 "prod"
                    [Fixture.web; Fixture.db])).
Proof.
  split; [vm_compute; reflexivity|]. split; [vm_compute; reflexivity|].
  apply (risky_records_have_no_snapshot Fixture.rc0 "prod" "").
  right. left. vm_compute. reflexivity.
Defined.

Lemma namespace_risky_list_keeps_listing_order_witness :
  ListPVCs (client Scenario.withoutChecker) "prod"
  = Ok [Fixture.web; Fixture.db; Scenario.cache]
  ∧ ((λ risky, (RiskyPVC_Namespace risky, RiskyPVC_Name risky))
       <$> [Scenario.riskyDb])
      `sublist_of` ((λ pvc, (PVC_Namespace pvc, PVC_Name pvc))
                      <$> [Fixture.web; Fixture.db; Scenario.cache])
  ∧ (length [Scenario.riskyDb]
     ≤ length (filter (λ pvc, PVC_Phase pvc = "Bound")
                 [Fixture.web; Fixture.db; Scenario.cache]))%nat.
Proof.
  split; [vm_compute; reflexivity|].
  apply (namespace_risky_list_keeps_listing_order Scenario.withoutChecker
           "prod" [Fixture.web; Fixture.db; Scenario.cache]
           {| IsRisky := true; RiskyPVCs := [Scenario.riskyDb];
              Message := buildNamespaceBlockMessage "prod" [Scenario.riskyDb];
              Suggestion := buildSuggestions "prod" [Scenario.riskyDb] |});
    vm_compute; reflexivity.
Defined.

Lemma namespace_risky_iff_some_bound_pvc_risky_witness :
  ListPVCs (client Scenario.withSnapshots) "prod"
  = Ok [Fixture.web; Fixture.db; Scenario.cache]
  ∧ ∃ assessment,
      AssessNamespaceDeletion Scenario.withSnapshots "prod" = Ok assessment
      ∧ (IsRisky assessment = true ↔
         ∃ pvc pv,
           pvc ∈ [Fixture.web; Fixture.db; Scenario.cache]
           ∧ PVC_Phase pvc = "Bound"
           ∧ GetPV (client Scenario.withSnapshots) (PVC_VolumeName pvc) = Ok pv
           ∧ (isPVCRisky Scenario.withSnapshots (PVC_Namespace pvc)
                (PVC_Name pvc) pv).1.1 = true)
      ∧ ((∀ pvc, pvc ∈ [Fixture.web; Fixture.db; Scenario.cache] →
                 PVC_Phase pvc ≠ "Bound") →
         IsRisky assessment = false ∧ RiskyPVCs assessment = []).
Proof.
  split; [vm_compute; reflexivity|].
  apply (namespace_risky_iff_some_bound_pvc_risky Scenario.withSnapshots
           "prod" [Fixture.web; Fixture.db; Scenario.cache]).
  vm_compute. reflexivity.
Defined.

Lemma namespace_assessment_is_per_pvc_assessment_witness :
  ListPVCs (client Scenario.withoutChecker) "prod"
  = Ok [Fixture.web; Fixture.db; Scenario.cache]
  ∧ ∃ assessment,
      AssessNamespaceDeletion Scenario.withoutChecker "prod" = Ok assessment
      ∧ RiskyPVCs assessment
        = [Fixture.web; Fixture.db; Scenario.cache] ≫= λ pvc,
            match AssessPVCDeletion Scenario.withoutChecker
                    (PVC_Namespace pvc) (PVC_Name pvc) with
            | Ok a => RiskyPVCs a
            | Err _ => []
            end.
Proof.
  split; [vm_compute; reflexivity|].
  apply (namespace_assessment_is_per_pvc_assessment Scenario.withoutChecker
           "prod" [Fixture.web; Fixture.db; Scenario.cache]).
  - vm_compute. reflexivity.
  - intros pvc Hin.
    repeat (apply elem_of_cons in Hin as [->|Hin];
            [vm_compute; reflexivity|]).
    by apply elem_of_nil in Hin.
Defined.

Lemma namespace_denial_texts_witness :
  Scenario.riskyDb ∈ [Scenario.riskyDb]
  ∧ strings_Contains (buildNamespaceBlockMessage "prod" [Scenario.riskyDb])
      ("  - " +:+ RiskyPVC_Name Scenario.riskyDb +:+ ": "
         +:+ RiskyPVC_Reason Scenario.riskyDb +:+ LF) = true
  ∧ strings_Contains (buildNamespaceBlockMessage "prod" [Scenario.riskyDb])
      ("contains " +:+ fmt_d (length [Scenario.riskyDb]) +:+ " PVC(s)") = true
  ∧ strings_Contains (buildSuggestions "prod" [Scenario.riskyDb])
      ("kubectl patch pv " +:+ RiskyPVC_PVName Scenario.riskyDb +:+ " -p ")
    = true
  ∧ strings_Contains (buildSuggestions "prod" [Scenario.riskyDb])
      ("kubectl label namespace " +:+ "prod"
         +:+ " pv-safe.io/force-delete=true") = true
  ∧ strings_Contains (buildSuggestions "prod" [Scenario.riskyDb])
      ("kubectl delete namespace " +:+ "prod" +:+ LF) = true.
Proof.
  split; [by left|].
  apply (namespace_denial_texts "prod" [Scenario.riskyDb] Scenario.riskyDb).
  by left.
Defined.

Lemma pvc_denial_texts_witness :
  AssessPVCDeletion Fixture.rc0 "prod" "db"
  = Ok {| IsRisky := true; RiskyPVCs := [Scenario.riskyDb];
          Message := buildPVCBlockMessage Scenario.riskyDb;
          Suggestion := buildPVCSuggestions "prod" "db" "pv-2" |}
  ∧ strings_Contains
      (buildPVCBlockMessage Scenario.riskyDb
         +:+ buildPVCSuggestions "prod" "db" "pv-2")
      ("kubectl patch pv " +:+ "pv-2" +:+ " -p ") = true.
Proof.
  split; [vm_compute; reflexivity|].
  refine (proj1 (proj2 (proj2
            (pvc_denial_texts Fixture.rc0 "prod" "db" Fixture.db Fixture.pv2
               {| IsRisky := true; RiskyPVCs := [Scenario.riskyDb];
                  Message := buildPVCBlockMessage Scenario.riskyDb;
                  Suggestion := buildPVCSuggestions "prod" "db" "pv-2" |}
               _ _ _ _)))); vm_compute; reflexivity.
Defined.

Lemma pvc_with_retained_snapshot_is_safe_witness :
  ListVolumeSnapshots (dynamicClient (Fixture.checker Fixture.snaps)) "prod"
  = Ok ([Fixture.snapshot "snap-0" "prod" "db" true (Some "c-delete")]
          ++ Scenario.snap1
          :: [Fixture.snapshot "snap-2" "prod" "db" true (Some "c-retain")])
  ∧ AssessPVCDeletion Fixture.rc1 "prod" "db"
    = Ok {| IsRisky := false; RiskyPVCs := [];
            Message := "Ready VolumeSnapshot '" +:+ GetName Scenario.snap1
                       +:+ "' exists with Retain policy";
            Suggestion := "" |}
  ∧ Allowed (handleAdmissionRequest Fixture.unmarshalObject
               {| Handler_RiskCalculator := Fixture.rc1 |} Fixture.deleteDb)
    = true.
Proof.
  split; [vm_compute; reflexivity|].
  apply (pvc_with_retained_snapshot_is_safe Fixture.unmarshalObject
           {| Handler_RiskCalculator := Fixture.rc1 |} Fixture.deleteDb
           Fixture.db Fixture.pv2 (Fixture.checker Fixture.snaps)
           [Fixture.snapshot "snap-0" "prod" "db" true (Some "c-delete")]
           Scenario.snap1
           [Fixture.snapshot "snap-2" "prod" "db" true (Some "c-retain")]);
    try (vm_compute; reflexivity).
  - constructor; [|constructor]. by intros (_ & _ & ?).
  - vm_compute. done.
  - discriminate.
Defined.

Lemma ListSnapshots_describes_the_snapshots_of_the_pvc_witness :
  ListVolumeSnapshots (dynamicClient (Fixture.checker Fixture.snaps)) "prod"
  = Ok Fixture.snaps
  ∧ ∃ infos,
      ListSnapshots (Fixture.checker Fixture.snaps) "prod" "db" = Ok infos
      ∧ SnapshotInfo_Name <$> infos
        = GetName <$> filter (λ s, sourcePVCName s = Some "db") Fixture.snaps
      ∧ SnapshotInfo_IsReady <$> infos
        = readyFlag <$> filter (λ s, sourcePVCName s = Some "db") Fixture.snaps
      ∧ Forall (λ info, SnapshotInfo_SourcePVC info = "db") infos.
Proof.
  split; [vm_compute; reflexivity|].
  apply (ListSnapshots_describes_the_snapshots_of_the_pvc
           (Fixture.checker Fixture.snaps) "prod" "db" Fixture.snaps).
  vm_compute. reflexivity.
Defined.

Lemma HasReadySnapshot_agrees_with_ListSnapshots_witness :
  ListVolumeSnapshots (dynamicClient (Fixture.checker Fixture.snaps)) "prod"
  = Ok Fixture.snaps
  ∧ ∃ infos,
      ListSnapshots (Fixture.checker Fixture.snaps) "prod" "db" = Ok infos
      ∧ HasReadySnapshot (Fixture.checker Fixture.snaps) "prod" "db"
        = match List.find
                  (λ info, SnapshotInfo_IsReady info
                           && String.eqb (SnapshotInfo_DeletionPolicy info)
                                         "Retain") infos with
          | Some info => (true, Some info, None)
          | None => (false, None, None)
          end.
Proof.
  split; [vm_compute; reflexivity|].
  apply (HasReadySnapshot_agrees_with_ListSnapshots
           (Fixture.checker Fixture.snaps) "prod" "db" Fixture.snaps).
  vm_compute. reflexivity.
Defined.

(** X22: the texts of a PV denial. For a fetched PV whose policy is not
    Retain the assessment has one risky record, carrying the PV's name and
    the namespace and name of the claim reference (both empty without one).
    Message and suggestion name the PV, give the reason, and offer the
    [kubectl patch pv] and the force-delete commands for it; the message
    ends with the line "Bound to: <namespace>/<name>" when the claim
    reference has both, and has no such line when the PV has no claim
    reference. *)
Theorem pv_denial_texts rc pvName pv :
  GetPV (client rc) pvName = Ok pv →
  PV_ReclaimPolicy pv ≠ "Retain" →
  ∃ assessment risky blockMessage,
    AssessPVDeletion rc pvName = Ok assessment
    ∧ IsRisky assessment = true
    ∧ RiskyPVCs assessment = [risky]
    ∧ RiskyPVC_PVName risky = PV_Name pv
    ∧ (RiskyPVC_Namespace risky, RiskyPVC_Name risky)
      = match PV_ClaimRef pv with
        | Some ref => (ObjectReference_Namespace ref, ObjectReference_Name ref)
        | None => ("", "")
        end
    ∧ blockMessage
      = "DELETION BLOCKED: PV '" +:+ PV_Name pv
          +:+ "' would lose data permanently" +:+ LF +:+ LF
          +:+ "Reason: PV has " +:+ PV_ReclaimPolicy pv
          +:+ " reclaim policy, no snapshot found" +:+ LF
    ∧ (PV_ClaimRef pv = None → Message assessment = blockMessage)
    ∧ (∀ ref,
         PV_ClaimRef pv = Some ref →
         ObjectReference_Namespace ref ≠ "" →
         ObjectReference_Name ref ≠ "" →
         Message assessment
         = blockMessage +:+ "Bound to: " +:+ ObjectReference_Namespace ref
             +:+ "/" +:+ ObjectReference_Name ref +:+ LF)
    ∧ strings_Contains (Suggestion assessment)
        ("kubectl patch pv " +:+ PV_Name pv +:+ " -p ") = true
    ∧ strings_Contains (Suggestion assessment)
        ("kubectl label pv " +:+ PV_Name pv
           +:+ " pv-safe.io/force-delete=true") = true
    ∧ strings_Contains (Suggestion assessment)
        ("kubectl delete pv " +:+ PV_Name pv +:+ LF) = true.
Proof.
  intros Hpv Hpol. unfold AssessPVDeletion. rewrite Hpv.
  assert (Hrisky : isPVRisky pv = true).
  { unfold isPVRisky, PersistentVolumeReclaimRetain.
    destruct (String.eqb_spec (PV_ReclaimPolicy pv) "Retain"); [done|].
    by destruct (String.eqb _ _). }
  rewrite Hrisky.
  set (steps := LF +:+ "To safely delete this PV:" +:+ LF
                +:+ "  1. Create a VolumeSnapshot of the data" +:+ LF
                +:+ "  2. OR change reclaim policy to Retain:" +:+ LF).
  set (patch := "'{" +:+ DQ +:+ "spec" +:+ DQ +:+ ":{" +:+ DQ
                +:+ "persistentVolumeReclaimPolicy" +:+ DQ +:+ ":" +:+ DQ
                +:+ "Retain" +:+ DQ +:+ "}}'" +:+ LF).
  assert (Htexts :
    strings_Contains (buildPVSuggestions pv)
      ("kubectl patch pv " +:+ PV_Name pv +:+ " -p ") = true
    ∧ strings_Contains (buildPVSuggestions pv)
        ("kubectl label pv " +:+ PV_Name pv
           +:+ " pv-safe.io/force-delete=true") = true
    ∧ strings_Contains (buildPVSuggestions pv)
        ("kubectl delete pv " +:+ PV_Name pv +:+ LF) = true).
  { unfold buildPVSuggestions, patchLine. repeat apply conj.
    - between (steps +:+ "     ")
              (patch +:+ LF +:+ "  3. OR force delete (will lose data):"
                 +:+ LF +:+ "     kubectl label pv " +:+ PV_Name pv
                 +:+ " pv-safe.io/force-delete=true" +:+ LF
                 +:+ "     kubectl delete pv " +:+ PV_Name pv +:+ LF
                 +:+ LF +:+ "  4. Then retry the deletion" +:+ LF).
    - between (steps +:+ "     kubectl patch pv " +:+ PV_Name pv +:+ " -p "
                 +:+ patch +:+ LF
                 +:+ "  3. OR force delete (will lose data):" +:+ LF
                 +:+ "     ")
              (LF +:+ "     kubectl delete pv " +:+ PV_Name pv +:+ LF
                 +:+ LF +:+ "  4. Then retry the deletion" +:+ LF).
    - between (steps +:+ "     kubectl patch pv " +:+ PV_Name pv +:+ " -p "
                 +:+ patch +:+ LF
                 +:+ "  3. OR force delete (will lose data):" +:+ LF
                 +:+ "     kubectl label pv " +:+ PV_Name pv
                 +:+ " pv-safe.io/force-delete=true" +:+ LF +:+ "     ")
              (LF +:+ "  4. Then retry the deletion" +:+ LF). }
  destruct (PV_ClaimRef pv) as [ref|] eqn:Href.
  - do 3 eexists. split; [reflexivity|].
    cbn [IsRisky RiskyPVCs Message Suggestion RiskyPVC_PVName
         RiskyPVC_Namespace RiskyPVC_Name].
    repeat apply conj; try done; try apply Htexts.
    intros ref' [= <-] Hns Hn. unfold buildPVBlockMessage.
    cbn [RiskyPVC_Namespace RiskyPVC_Name RiskyPVC_Reason].
    destruct (String.eqb_spec (ObjectReference_Namespace ref) ""); [done|].
    destruct (String.eqb_spec (ObjectReference_Name ref) ""); [done|].
    cbn [negb andb]. by rewrite !append_assoc.
  - do 3 eexists. split; [reflexivity|].
    cbn [IsRisky RiskyPVCs Message Suggestion RiskyPVC_PVName
         RiskyPVC_Namespace RiskyPVC_Name].
    repeat apply conj; try done; try apply Htexts.
    intros _. unfold buildPVBlockMessage.
    cbn [RiskyPVC_Namespace RiskyPVC_Name RiskyPVC_Reason].
    change (negb (String.eqb "" "") && negb (String.eqb "" "")) with false.
    cbv iota. by rewrite !append_assoc.
Qed.

Lemma pv_denial_texts_witness :
  GetPV (client Fixture.rc0) "pv-2" = Ok Fixture.pv2
  ∧ ∃ assessment,
      AssessPVDeletion Fixture.rc0 "pv-2" = Ok assessment
      ∧ Message assessment
        = "DELETION BLOCKED: PV '" +:+ "pv-2"
            +:+ "' would lose data permanently" +:+ LF +:+ LF
            +:+ "Reason: PV has " +:+ "Delete"
            +:+ " reclaim policy, no snapshot found" +:+ LF
            +:+ "Bound to: " +:+ "prod" +:+ "/" +:+ "db" +:+ LF.
Proof.
  split; [vm_compute; reflexivity|].
  destruct (pv_denial_texts Fixture.rc0 "pv-2" Fixture.pv2)
    as (assessment & risky & blockMessage & Hassess & _ & _ & _ & _
        & Hblock & _ & Hbound & _).
  - vm_compute. reflexivity.
  - discriminate.
  - exists assessment. split; [exact Hassess|].
    rewrite (Hbound {| ObjectReference_Namespace := "prod";
                       ObjectReference_Name := "db" |});
      [|reflexivity|discriminate|discriminate].
    rewrite Hblock. rewrite !append_assoc. reflexivity.
Defined.
